(** * NX-OS port automation: the change pipeline of [main.py]

    A shallow embedding of the FastAPI backend: the request and response
    models, configuration synthesis ([NXOSOperations.generate_config]), the
    mocked device operations, the Git-backed audit store ([GitOpsManager])
    and the HTTP endpoints that compose them. *)

From Stdlib Require Import ZArith String Ascii List Lia.
From stdpp Require Import base strings pretty gmap list.

Local Open Scope string_scope.
Local Open Scope Z_scope.
Local Open Scope list_scope.

(** ** Python strings *)

Module PyStr.

(** The line feed of ["\n".join(...)]. *)
Definition LF : string := String (ascii_of_nat 10) EmptyString.

(** [sep.join(parts)]. *)
Definition join (sep : string) (parts : list string) : string :=
  String.concat sep parts.

(** [s.replace(a, b)] for one-character [a] and [b]. *)
Fixpoint replace_char (a b : ascii) (s : string) : string :=
  match s with
  | EmptyString => EmptyString
  | String c rest =>
      String (if Ascii.eqb c a then b else c) (replace_char a b rest)
  end.

(** [sub in s]: [sub] occurs in [s] as a contiguous run of characters. *)
Fixpoint contains (sub s : string) : bool :=
  String.prefix sub s
  || match s with
     | EmptyString => false
     | String _ rest => contains sub rest
     end.

(** [s[:n]] for a non-negative literal [n]. *)
Definition take (n : nat) (s : string) : string := String.substring 0 n s.

(** Truth value of a string: empty strings are falsy. *)
Definition truthy (s : string) : bool :=
  match s with EmptyString => false | _ => true end.

(** The characters [str.strip()] removes among the first 128 code points. *)
Definition is_space (c : ascii) : bool :=
  let n := nat_of_ascii c in
  ((9 <=? n)%nat && (n <=? 13)%nat) || ((28 <=? n)%nat && (n <=? 32)%nat).

Fixpoint lstrip (s : string) : string :=
  match s with
  | EmptyString => EmptyString
  | String c rest => if is_space c then lstrip rest else s
  end.

Fixpoint rstrip (s : string) : string :=
  match s with
  | EmptyString => EmptyString
  | String c rest =>
      match rstrip rest with
      | EmptyString => if is_space c then EmptyString else String c EmptyString
      | r => String c r
      end
  end.

Definition strip (s : string) : string := rstrip (lstrip s).

(** [l[:limit]] for a Python int [limit]: a negative bound counts from the
    end of the list. *)
Definition slice_to {A} (l : list A) (limit : Z) : list A :=
  if 0 <=? limit then firstn (Z.to_nat limit) l
  else firstn (length l - Z.to_nat (- limit)) l.

End PyStr.

(** ** Pydantic models *)

Record PortConfigRequest := {
  device : string;
  interface : string;
  vlan : option Z;
  description : option string;
  mode : string;
  vni : option Z;
  vrf : option string;
}.

Record PreCheckResponse := {
  port_exists : bool;
  admin_status : string;
  oper_status : string;
  current_config : list (string * string);
  mac_addresses : list string;
  recommendations : list string;
  is_safe_to_configure : bool;
}.

Record ConfigurationResponse := {
  success : bool;
  commit_hash : string;
  timestamp : string;
  applied_config : string;
  message : string;
}.

(** Truth value of an [Optional[int]]: [None] and [0] are falsy. *)
Definition truthy_int (o : option Z) : option Z :=
  match o with
  | Some 0 => None
  | other => other
  end.

(** Truth value of an [Optional[str]]: [None] and [""] are falsy. *)
Definition truthy_str (o : option string) : option string :=
  match o with
  | Some s => if PyStr.truthy s then Some s else None
  | None => None
  end.

(** ** The Git object model (GitPython)

    A commit records the staged tree, the message, the author name and the
    commit date, and points at its parent.  [ensure_repo] creates the only
    parentless commit; every later commit has exactly one parent, so the
    history below a commit is a chain. *)

Module Git.

Record CommitInfo := {
  tree : gmap string string;
  message : string;
  author : string;
  committed_date : Z;
}.

Inductive Commit :=
| Root (info : CommitInfo)
| Child (info : CommitInfo) (parent : Commit).

Definition info (c : Commit) : CommitInfo :=
  match c with
  | Root i => i
  | Child i _ => i
  end.

(** [repo.iter_commits()] started at a commit: the commit, then its
    ancestors, newest first. *)
Fixpoint iter_from (c : Commit) : list Commit :=
  c :: match c with
       | Root _ => []
       | Child _ p => iter_from p
       end.

(** Number of ancestors. *)
Fixpoint depth (c : Commit) : nat :=
  match c with
  | Root _ => O
  | Child _ p => S (depth p)
  end.

(** One line of the log Git keeps of the movements of HEAD: a commit made,
    or a checkout of a revision that named a commit. *)
Inductive RefLogEntry :=
| LogCommit (c : Commit)
| LogCheckout (rev : string) (c : Commit).

(** The repository: the object database keyed by digest, the commit HEAD
    names, the log of the movements of HEAD (oldest first), the staging
    area, the working directory and the configured author name.  The
    program reads and writes these only; what else Git keeps (branches,
    tags) it reaches through revision strings alone. *)
Record Repo := {
  objects : gmap string Commit;
  HEAD : Commit;
  reflog : list RefLogEntry;
  index : gmap string string;
  worktree : gmap string string;
  user_name : string;
}.

End Git.

(** What the program takes from its libraries without defining it: the
    SHA-1 digest of a commit object in hexadecimal (40 characters),
    [json.dump(..., indent=2)] on a flat dictionary of strings,
    [datetime.isoformat()] of a time given in microseconds, and the commit
    that Git makes of a revision string in a repository ([rev_parse]): a
    digest or an abbreviation of one, [HEAD], a branch or a tag, a relative
    revision such as [HEAD~1], [-], or nothing.  Of that resolution two
    things are used: a commit it names is in the object database, and the
    full digest of a stored commit names that commit. *)
Class Platform := {
  hexsha : Git.Commit -> string;
  hexsha_length : forall c, String.length (hexsha c) = 40%nat;
  json_dumps : list (string * string) -> string;
  isoformat : Z -> string;
  rev_parse : Git.Repo -> string -> option Git.Commit;
  rev_parse_stored :
    forall r rev c,
      rev_parse r rev = Some c -> exists h, Git.objects r !! h = Some c;
  rev_parse_digest :
    forall r c,
      Git.objects r !! hexsha c = Some c -> rev_parse r (hexsha c) = Some c;
}.

(** ** Exceptions, the world and the effect monad *)

Inductive Exc :=
| HTTPException (status_code : Z) (detail : string)
| GitCommandError (rev : string)
| DeviceError (text : string).

(** [str(e)]; Starlette prints an [HTTPException] as ["<status>: <detail>"]. *)
Definition str_exc (e : Exc) : string :=
  match e with
  | HTTPException st d => pretty st +:+ ": " +:+ d
  | GitCommandError rev => "git checkout " +:+ rev +:+ " failed"
  | DeviceError text => text
  end.

Inductive Result (A : Type) :=
| Returns (a : A)
| Raises (e : Exc).
Arguments Returns {A} a.
Arguments Raises {A} e.

(** What the process did to the store and to the devices, oldest first. *)
Inductive Event :=
| PreCheckCalled (device interface : string)
| CommitCreated (c : Git.Commit)
| ApplyCalled (device config : string).

Record World := {
  repo : Git.Repo;
  clock : nat -> Z;   (* successive readings of the wall clock, microseconds *)
  ticks : nat;        (* readings taken so far *)
  trace : list Event;
}.

Definition M (A : Type) : Type := World -> Result A * World.

Definition ret {A} (a : A) : M A := fun w => (Returns a, w).

Definition raise {A} (e : Exc) : M A := fun w => (Raises e, w).

Definition bind {A B} (m : M A) (k : A -> M B) : M B :=
  fun w =>
    match m w with
    | (Returns a, w') => k a w'
    | (Raises e, w') => (Raises e, w')
    end.

(** [try: m except ...: h e] *)
Definition try_except {A} (m : M A) (h : Exc -> M A) : M A :=
  fun w =>
    match m w with
    | (Returns a, w') => (Returns a, w')
    | (Raises e, w') => h e w'
    end.

Declare Scope py_scope.
Delimit Scope py_scope with py.
Notation "x <- m ;; k" := (bind m (fun x => k))
  (at level 100, m at next level, right associativity) : py_scope.
Notation "m ;;; k" := (bind m (fun _ => k))
  (at level 100, right associativity) : py_scope.

Definition get_repo : M Git.Repo := fun w => (Returns (repo w), w).

Definition put_repo (r : Git.Repo) : M unit :=
  fun w => (Returns tt,
            {| repo := r; clock := clock w; ticks := ticks w; trace := trace w |}).

Definition log_event (ev : Event) (w : World) : World :=
  {| repo := repo w; clock := clock w; ticks := ticks w;
     trace := trace w ++ [ev] |}.

Definition emit (ev : Event) : M unit :=
  fun w => (Returns tt, log_event ev w).

(** [datetime.now()] / [time.time()]: the next reading of the clock. *)
Definition now : M Z :=
  fun w => (Returns (clock w (ticks w)),
            {| repo := repo w; clock := clock w; ticks := S (ticks w);
               trace := trace w |}).

(** The device-facing operations of [NXOSOperations], as the endpoints call
    them.  They may look at the world and may raise. *)
Record DeviceOps := {
  op_pre_check_port : World -> string -> string -> Result PreCheckResponse;
  op_apply_config : World -> string -> string -> Result bool;
}.

Definition call_pre_check (ops : DeviceOps) (device interface : string)
  : M PreCheckResponse :=
  fun w => (op_pre_check_port ops w device interface,
            log_event (PreCheckCalled device interface) w).

Definition call_apply (ops : DeviceOps) (device config : string) : M bool :=
  fun w => (op_apply_config ops w device config,
            log_event (ApplyCalled device config) w).

(** ** Network operations ([class NXOSOperations]) *)

Module NXOSOperations.

(** [pre_check_port]: the mock response returned for demonstration. *)
Definition pre_check_port (device interface : string) : PreCheckResponse :=
  {| port_exists := true;
     admin_status := "up";
     oper_status := "down";
     current_config :=
       [("description", "Uplink to Core"); ("vlan", "10");
        ("mode", "access"); ("speed", "auto"); ("duplex", "auto")];
     mac_addresses := [];
     recommendations :=
       ["Port is administratively up but operationally down";
        "No MAC addresses learned - safe to reconfigure";
        "Consider checking physical connectivity"];
     is_safe_to_configure := true |}.


(** The list [config_lines] that [generate_config] builds, one [append] after
    the other. *)
Definition config_lines (request : PortConfigRequest) : list string :=
  let l0 := ["interface " +:+ interface request] in
  let l1 :=
    match truthy_str (description request) with
    | Some d => l0 ++ ["  description " +:+ d]
    | None => l0
    end in
  let l2 := l1 ++ ["  switchport"] in
  let l3 :=
    if String.eqb (mode request) "access" then
      let l := l2 ++ ["  switchport mode access"] in
      match truthy_int (vlan request) with
      | Some v => l ++ ["  switchport access vlan " +:+ pretty v]
      | None => l
      end
    else if String.eqb (mode request) "trunk" then
      let l := l2 ++ ["  switchport mode trunk"] in
      match truthy_int (vlan request) with
      | Some v => l ++ ["  switchport trunk allowed vlan " +:+ pretty v]
      | None => l
      end
    else l2 in
  let l4 :=
    match truthy_int (vni request) with
    | Some n => (l3 ++ ["  vxlan"]) ++ ["    vni " +:+ pretty n]
    | None => l3
    end in
  let l5 :=
    match truthy_str (vrf request) with
    | Some f => l4 ++ ["  vrf member " +:+ f]
    | None => l4
    end in
  l5 ++ ["  no shutdown"].

Definition generate_config (request : PortConfigRequest) : string :=
  PyStr.join PyStr.LF (config_lines request).

(** [apply_config]: sleeps, then reports success. *)
Definition apply_config (device config : string) : bool := true.

End NXOSOperations.

(** The module-level instance [nxos_ops]. *)
Definition nxos_ops : DeviceOps :=
  {| op_pre_check_port := fun _ device interface =>
       Returns (NXOSOperations.pre_check_port device interface);
     op_apply_config := fun _ device config =>
       Returns (NXOSOperations.apply_config device config) |}.

(** ** The repository as GitPython drives it *)

Definition CONFIG_REPO_PATH : string := "/opt/network-configs".

Module GitPython.

Definition set_worktree (r : Git.Repo) (wt : gmap string string) : Git.Repo :=
  {| Git.objects := Git.objects r; Git.HEAD := Git.HEAD r;
     Git.reflog := Git.reflog r;
     Git.index := Git.index r; Git.worktree := wt;
     Git.user_name := Git.user_name r |}.

Definition set_index (r : Git.Repo) (ix : gmap string string) : Git.Repo :=
  {| Git.objects := Git.objects r; Git.HEAD := Git.HEAD r;
     Git.reflog := Git.reflog r;
     Git.index := ix; Git.worktree := Git.worktree r;
     Git.user_name := Git.user_name r |}.

(** [with open(path, "w") as f: f.write(content)] *)
Definition write_file (path content : string) : M unit :=
  (r <- get_repo ;;
   put_repo (set_worktree r (<[path := content]> (Git.worktree r))))%py.

(** [repo.index.add(paths)]: stage the files as they are on disk. *)
Fixpoint index_add (paths : list string) : M unit :=
  match paths with
  | [] => ret tt
  | path :: more =>
      (r <- get_repo ;;
       match Git.worktree r !! path with
       | Some content =>
           put_repo (set_index r (<[path := content]> (Git.index r))) ;;;
           index_add more
       | None => raise (GitCommandError path)
       end)%py
  end.

(** Writing an object never replaces one already stored under its digest. *)
Definition store (h : string) (c : Git.Commit) (db : gmap string Git.Commit)
  : gmap string Git.Commit :=
  match db !! h with
  | Some _ => db
  | None => <[h := c]> db
  end.

Section WithPlatform.
Context {pf : Platform}.

(** [repo.index.commit(message)]: a commit of the staged tree on top of
    HEAD; HEAD moves to it.  The object database is taken to hold the
    new object under its digest (distinct objects with one full digest
    are outside the model). *)
Definition index_commit (message : string) : M Git.Commit :=
  (t <- now ;;
   r <- get_repo ;;
   let c := Git.Child {| Git.tree := Git.index r;
                         Git.message := message;
                         Git.author := Git.user_name r;
                         Git.committed_date := t / 1000000 |} (Git.HEAD r) in
   put_repo {| Git.objects := store (hexsha c) c (Git.objects r);
               Git.HEAD := c;
               Git.reflog := Git.reflog r ++ [Git.LogCommit c];
               Git.index := Git.index r;
               Git.worktree := Git.worktree r;
               Git.user_name := Git.user_name r |} ;;;
   emit (CommitCreated c) ;;;
   ret c)%py.

(** [repo.git.checkout(rev)] in a clean working directory: when Git makes
    a commit of [rev], HEAD, the staging area and the files become those of
    that commit, and the move is logged; otherwise the command fails. *)
Definition checkout (rev : string) : M unit :=
  (r <- get_repo ;;
   match rev_parse r rev with
   | Some c =>
       put_repo {| Git.objects := Git.objects r;
                   Git.HEAD := c;
                   Git.reflog := Git.reflog r ++ [Git.LogCheckout rev c];
                   Git.index := Git.tree (Git.info c);
                   Git.worktree := Git.tree (Git.info c);
                   Git.user_name := Git.user_name r |}
   | None => raise (GitCommandError rev)
   end)%py.

End WithPlatform.

End GitPython.

(** ** Git integration ([class GitOpsManager]) *)

Module History.

(** One [commit_data] dictionary of [get_history]. *)
Record entry := {
  commit_hash : string;
  message : string;
  timestamp : string;
  author : string;
}.

End History.

Module GitOpsManager.

Section WithPlatform.
Context {pf : Platform}.

(** [ensure_repo]: when the path does not exist ([existing = None]) the
    repository is initialised with a README and an initial commit made at
    clock reading [t]; an existing repository is left as it is. *)
Definition ensure_repo (existing : option Git.Repo) (user_name : string) (t : Z)
  : Git.Repo :=
  match existing with
  | Some r => r
  | None =>
      let files : gmap string string :=
        {[ CONFIG_REPO_PATH +:+ "/README.md" :=
             "# Network Configuration Repository" +:+ PyStr.LF ]} in
      let c := Git.Root {| Git.tree := files;
                           Git.message := "Initial commit";
                           Git.author := user_name;
                           Git.committed_date := t / 1000000 |} in
      {| Git.objects := {[ hexsha c := c ]};
         Git.HEAD := c;
         Git.reflog := [Git.LogCommit c];
         Git.index := files;
         Git.worktree := files;
         Git.user_name := user_name |}
  end.

Definition commit_config (device interface config user : string) : M string :=
  (let device_dir := CONFIG_REPO_PATH +:+ "/devices/" +:+ device in
   let config_file :=
     device_dir +:+ "/" +:+ PyStr.replace_char "/" "_" interface +:+ ".conf" in
   GitPython.write_file config_file config ;;;
   t <- now ;;
   let metadata :=
     [("device", device); ("interface", interface);
      ("timestamp", isoformat t); ("user", user); ("config", config)] in
   let metadata_file :=
     device_dir +:+ "/" +:+ PyStr.replace_char "/" "_" interface +:+ ".json" in
   GitPython.write_file metadata_file (json_dumps metadata) ;;;
   GitPython.index_add [config_file; metadata_file] ;;;
   commit <- GitPython.index_commit ("Configure " +:+ device +:+ " " +:+ interface) ;;
   ret (PyStr.take 7 (hexsha commit)))%py.

Definition commit_data (commit : Git.Commit) : History.entry :=
  {| History.commit_hash := PyStr.take 7 (hexsha commit);
     History.message := PyStr.strip (Git.message (Git.info commit));
     History.timestamp :=
       isoformat (Git.committed_date (Git.info commit) * 1000000);
     History.author := Git.author (Git.info commit) |}.

(** The test of the loop body: with a (non-empty) [device], only commits
    whose message contains it are appended. *)
Definition selected (device : option string) (commit : Git.Commit) : bool :=
  match truthy_str device with
  | Some d => PyStr.contains d (Git.message (Git.info commit))
  | None => true
  end.

Definition get_history (device : option string) (limit : Z)
  : M (list History.entry) :=
  (r <- get_repo ;;
   let commits := PyStr.slice_to (Git.iter_from (Git.HEAD r)) limit in
   ret (map commit_data (List.filter (selected device) commits)))%py.

Definition rollback (commit_hash : string) : M bool :=
  try_except
    (GitPython.checkout commit_hash ;;; ret true)%py
    (fun _ => ret false).

End WithPlatform.

End GitOpsManager.

(** ** API endpoints *)

Module Rollback.

(** The dictionary [rollback_config] returns. *)
Record response := {
  success : bool;
  message : string;
  commit_hash : string;
}.

End Rollback.

Section Endpoints.
Context {pf : Platform}.

(** [POST /api/v1/port/pre-check] *)
Definition pre_check_port_with (ops : DeviceOps) (device interface : string)
  : M PreCheckResponse :=
  try_except
    (call_pre_check ops device interface)
    (fun e => raise (HTTPException 500 (str_exc e))).

(** [POST /api/v1/port/configure], over the device operations it calls. *)
Definition configure_port_with (ops : DeviceOps) (request : PortConfigRequest)
  : M ConfigurationResponse :=
  try_except
    (pre_check <- call_pre_check ops (device request) (interface request) ;;
     if negb (is_safe_to_configure pre_check) then
       raise (HTTPException 400
                "Port is not safe to configure. Check pre-check results.")
     else
       let config := NXOSOperations.generate_config request in
       commit_hash <- GitOpsManager.commit_config
                        (device request) (interface request) config "api_user" ;;
       success <- call_apply ops (device request) config ;;
       if negb success then
         raise (HTTPException 500 "Failed to apply configuration")
       else
         t <- now ;;
         ret {| success := true;
                commit_hash := commit_hash;
                timestamp := isoformat t;
                applied_config := config;
                message := "Successfully configured " +:+ interface request
                             +:+ " on " +:+ device request |})%py
    (fun e =>
       match e with
       | HTTPException _ _ => raise e
       | _ => raise (HTTPException 500 (str_exc e))
       end).

Definition pre_check_port := pre_check_port_with nxos_ops.

Definition configure_port := configure_port_with nxos_ops.

(** [GET /api/v1/history] *)
Definition get_history (device : option string) (limit : Z)
  : M (list History.entry) :=
  try_except
    (GitOpsManager.get_history device limit)
    (fun e => raise (HTTPException 500 (str_exc e))).

(** [POST /api/v1/rollback/{commit_hash}]; the [HTTPException] raised in the
    [try] body is itself caught by [except Exception] and wrapped again. *)
Definition rollback_config (commit_hash : string) : M Rollback.response :=
  try_except
    (success <- GitOpsManager.rollback commit_hash ;;
     if negb success then
       raise (HTTPException 500 "Rollback failed")
     else
       ret {| Rollback.success := true;
              Rollback.message :=
                "Successfully rolled back to commit " +:+ commit_hash;
              Rollback.commit_hash := commit_hash |})%py
    (fun e => raise (HTTPException 500 (str_exc e))).

(** The process at start-up: [git_manager = GitOpsManager(CONFIG_REPO_PATH)]
    on a path that may or may not hold a repository already. *)
Definition startup (existing : option Git.Repo) (user_name : string)
    (clock : nat -> Z) : World :=
  {| repo := GitOpsManager.ensure_repo existing user_name (clock 0%nat);
     clock := clock;
     ticks := match existing with Some _ => 0 | None => 1 end;
     trace := [] |}.

End Endpoints.



(** ** Notions used in the statements *)

Section Derived.
Context {pf : Platform}.

Definition config_file (device interface : string) : string :=
  (CONFIG_REPO_PATH +:+ "/devices/" +:+ device)
    +:+ "/" +:+ PyStr.replace_char "/" "_" interface +:+ ".conf".

Definition metadata_file (device interface : string) : string :=
  (CONFIG_REPO_PATH +:+ "/devices/" +:+ device)
    +:+ "/" +:+ PyStr.replace_char "/" "_" interface +:+ ".json".

(** The metadata text [commit_config] writes in world [w]. *)
Definition metadata_text (device interface config user : string) (w : World)
  : string :=
  json_dumps [("device", device); ("interface", interface);
              ("timestamp", isoformat (clock w (ticks w)));
              ("user", user); ("config", config)].

(** The two files of a commit laid over a set of files. *)
Definition with_files (device interface config user : string) (w : World)
    (files : gmap string string) : gmap string string :=
  <[metadata_file device interface :=
      metadata_text device interface config user w]>
    (<[config_file device interface := config]> files).

(** The commit object [commit_config] creates in world [w]. *)
Definition next_commit (device interface config user : string) (w : World)
  : Git.Commit :=
  Git.Child
    {| Git.tree := with_files device interface config user w (Git.index (repo w));
       Git.message := "Configure " +:+ device +:+ " " +:+ interface;
       Git.author := Git.user_name (repo w);
       Git.committed_date := clock w (S (ticks w)) / 1000000 |}
    (Git.HEAD (repo w)).

(** The world [commit_config] leaves. *)
Definition after_commit (device interface config user : string) (w : World)
  : World :=
  let c := next_commit device interface config user w in
  {| repo :=
       {| Git.objects := GitPython.store (hexsha c) c (Git.objects (repo w));
          Git.HEAD := c;
          Git.reflog := Git.reflog (repo w) ++ [Git.LogCommit c];
          Git.index :=
            with_files device interface config user w (Git.index (repo w));
          Git.worktree :=
            with_files device interface config user w (Git.worktree (repo w));
          Git.user_name := Git.user_name (repo w) |};
     clock := clock w;
     ticks := S (S (ticks w));
     trace := trace w ++ [CommitCreated c] |}.

(** The world a checkout of [rev] leaves when [rev] names commit [c]. *)
Definition after_checkout (rev : string) (c : Git.Commit) (w : World) : World :=
  {| repo :=
       {| Git.objects := Git.objects (repo w);
          Git.HEAD := c;
          Git.reflog := Git.reflog (repo w) ++ [Git.LogCheckout rev c];
          Git.index := Git.tree (Git.info c);
          Git.worktree := Git.tree (Git.info c);
          Git.user_name := Git.user_name (repo w) |};
     clock := clock w;
     ticks := ticks w;
     trace := trace w |}.

(** One [commit_config] call after the other; the identifiers returned. *)
Fixpoint commit_each (calls : list (string * string * string * string))
  : M (list string) :=
  match calls with
  | [] => ret []
  | (device, interface, config, user) :: more =>
      (id <- GitOpsManager.commit_config device interface config user ;;
       ids <- commit_each more ;;
       ret (id :: ids))%py
  end.

(** The commit objects those calls create, oldest first. *)
Fixpoint commits_of (calls : list (string * string * string * string))
    (w : World) : list Git.Commit :=
  match calls with
  | [] => []
  | (device, interface, config, user) :: more =>
      next_commit device interface config user w
        :: commits_of more (after_commit device interface config user w)
  end.

Fixpoint world_after (calls : list (string * string * string * string))
    (w : World) : World :=
  match calls with
  | [] => w
  | (device, interface, config, user) :: more =>
      world_after more (after_commit device interface config user w)
  end.

End Derived.

(** What the [except] clauses of [configure_port] raise for an exception
    [e]: an [HTTPException] unchanged, anything else as a 500. *)
Definition as_http (e : Exc) : Exc :=
  match e with
  | HTTPException _ _ => e
  | _ => HTTPException 500 (str_exc e)
  end.

(** The world after one more reading of the clock. *)
Definition tick (w : World) : World :=
  {| repo := repo w; clock := clock w; ticks := S (ticks w); trace := trace w |}.

(** Device operations for the scenarios: a pre-check that reports a learned
    MAC address and vetoes the change, and an apply step that fails. *)
Definition vetoing_ops : DeviceOps :=
  {| op_pre_check_port := fun _ device interface =>
       let r := NXOSOperations.pre_check_port device interface in
       Returns {| port_exists := port_exists r;
                  admin_status := admin_status r;
                  oper_status := "up";
                  current_config := current_config r;
                  mac_addresses := ["aa:bb:cc:dd:ee:ff"];
                  recommendations := ["MAC addresses learned - port carries traffic"];
                  is_safe_to_configure := false |};
     op_apply_config := op_apply_config nxos_ops |}.

Definition failing_ops : DeviceOps :=
  {| op_pre_check_port := op_pre_check_port nxos_ops;
     op_apply_config := fun _ _ _ => Returns false |}.

Definition unreachable_ops : DeviceOps :=
  {| op_pre_check_port := op_pre_check_port nxos_ops;
     op_apply_config := fun _ device _ => Raises (DeviceError ("timeout: " +:+ device)) |}.



Definition ex_request : PortConfigRequest :=
  {| device := "leaf-01"; interface := "Eth1/1"; vlan := Some 10;
     description := Some "Server Link"; mode := "access";
     vni := None; vrf := None |}.

(** The configuration text a configure call reports as applied, if it
    succeeds. *)
Definition rendered_by_configure `{pf : Platform} (request : PortConfigRequest)
    (w : World) : option string :=
  match fst (configure_port request w) with
  | Returns resp => Some (applied_config resp)
  | Raises _ => None
  end.

(** Requests outside the ranges of the design text: a VLAN above 4094, a
    negative VNI, a mode that is neither access nor trunk. *)
Definition request_vlan_5000 : PortConfigRequest :=
  {| device := "leaf-01"; interface := "Eth1/1"; vlan := Some 5000;
     description := None; mode := "access"; vni := None; vrf := None |}.

Definition request_vni_negative : PortConfigRequest :=
  {| device := "leaf-01"; interface := "Eth1/1"; vlan := Some 10;
     description := None; mode := "trunk"; vni := Some (-7); vrf := None |}.

Definition request_mode_routed : PortConfigRequest :=
  {| device := "leaf-01"; interface := "Eth1/1"; vlan := Some 10;
     description := None; mode := "routed"; vni := None; vrf := None |}.

(** A clock that shows the same instant at every reading. *)
Definition frozen_clock (n : nat) : Z := 1700000000000000.

Definition request_leaf_10 : PortConfigRequest :=
  {| device := "leaf-10"; interface := "Eth1/1"; vlan := Some 10;
     description := None; mode := "access"; vni := None; vrf := None |}.


(** The command lines of the design text, block by block. *)
Module Blocks.

Definition selector (r : PortConfigRequest) : list string :=
  ["interface " +:+ interface r].

Definition description_lines (r : PortConfigRequest) : list string :=
  match truthy_str (description r) with
  | Some d => ["  description " +:+ d]
  | None => []
  end.

Definition vlan_line (keyword : string) (r : PortConfigRequest) : list string :=
  match truthy_int (vlan r) with
  | Some v => [keyword +:+ pretty v]
  | None => []
  end.

Definition mode_lines (r : PortConfigRequest) : list string :=
  if String.eqb (mode r) "access" then
    "  switchport mode access" :: vlan_line "  switchport access vlan " r
  else if String.eqb (mode r) "trunk" then
    "  switchport mode trunk" :: vlan_line "  switchport trunk allowed vlan " r
  else [].

Definition vxlan_lines (r : PortConfigRequest) : list string :=
  match truthy_int (vni r) with
  | Some n => ["  vxlan"; "    vni " +:+ pretty n]
  | None => []
  end.

Definition vrf_lines (r : PortConfigRequest) : list string :=
  match truthy_str (vrf r) with
  | Some f => ["  vrf member " +:+ f]
  | None => []
  end.

Definition all (r : PortConfigRequest) : list string :=
  selector r ++ description_lines r ++ ["  switchport"] ++ mode_lines r
    ++ vxlan_lines r ++ vrf_lines r ++ ["  no shutdown"].

End Blocks.

(** ** A reference platform for running examples

    Digests here are the depth of the commit in decimal, padded with [f] to
    forty characters; the JSON and date printers are equally crude.  It stands
    in for SHA-1 and the Python libraries only where a statement is run on
    concrete data. *)

Module Demo.

Fixpoint pad (n : nat) (s : string) : string :=
  match n with
  | O => EmptyString
  | S n' =>
      match s with
      | EmptyString => String "f" (pad n' EmptyString)
      | String c rest => String c (pad n' rest)
      end
  end.

Lemma pad_length n s : String.length (pad n s) = n.
Proof.
  revert s; induction n as [|n IH]; intros s; [reflexivity|].
  destruct s; simpl; now rewrite IH.
Qed.

Definition digest (c : Git.Commit) : string := pad 40 (pretty (Git.depth c)).

Definition dump (d : list (string * string)) : string :=
  PyStr.join ";" (map (fun kv => kv.1 +:+ "=" +:+ kv.2) d).

(** Revisions here are digests and their abbreviations: a full key of the
    object database, or at least four characters with which exactly one key
    starts.  Names and relative revisions resolve to nothing. *)
Definition resolve (r : Git.Repo) (rev : string) : option Git.Commit :=
  match Git.objects r !! rev with
  | Some c => Some c
  | None =>
      if (4 <=? String.length rev)%nat then
        match map_to_list
                (filter (fun kv => String.prefix rev kv.1 = true)
                   (Git.objects r)) with
        | [(_, c)] => Some c
        | _ => None
        end
      else None
  end.

Lemma resolve_stored r rev c :
  resolve r rev = Some c -> exists h, Git.objects r !! h = Some c.
Proof.
  unfold resolve. destruct (Git.objects r !! rev) as [c0|] eqn:E.
  - intros [= <-]. exists rev. exact E.
  - destruct (4 <=? String.length rev)%nat; [|discriminate].
    set (m := filter (fun kv : string * Git.Commit =>
                        String.prefix rev kv.1 = true) (Git.objects r)).
    destruct (map_to_list m) as [|[h c0] [|]] eqn:El; try discriminate.
    intros [= <-]. exists h.
    assert (Hm : m !! h = Some c0).
    { rewrite <- (list_to_map_to_list m), El. apply lookup_insert_eq. }
    apply map_lookup_filter_Some in Hm. tauto.
Qed.

Lemma resolve_digest r c :
  Git.objects r !! digest c = Some c -> resolve r (digest c) = Some c.
Proof. intros H. unfold resolve. now rewrite H. Qed.

Definition platform : Platform :=
  {| hexsha := digest;
     hexsha_length := fun c => pad_length 40 _;
     json_dumps := dump;
     isoformat := fun t => pretty t;
     rev_parse := resolve;
     rev_parse_stored := resolve_stored;
     rev_parse_digest := resolve_digest |}.

(** A clock that advances by one second at every reading. *)
Definition clock (n : nat) : Z := 1700000000000000 + Z.of_nat n * 1000000.

Definition world0 : World := @startup platform None "netops" clock.

End Demo.

(** ** Sequences of API calls *)

(** The state-changing routes of the application, as a client calls them. *)
Inductive ApiCall :=
| CallPreCheck (device interface : string)
| CallConfigure (request : PortConfigRequest)
| CallHistory (device : option string) (limit : Z)
| CallRollback (commit_hash : string).

Section ApiRuns.
Context {pf : Platform}.

(** The world one call leaves, whatever it answers. *)
Definition api_step (ops : DeviceOps) (w : World) (call : ApiCall) : World :=
  match call with
  | CallPreCheck d i => snd (pre_check_port_with ops d i w)
  | CallConfigure request => snd (configure_port_with ops request w)
  | CallHistory d limit => snd (get_history d limit w)
  | CallRollback rev => snd (rollback_config rev w)
  end.

(** The world a sequence of calls leaves, served one after the other. *)
Definition api_run (ops : DeviceOps) (calls : list ApiCall) (w : World) : World :=
  fold_left (api_step ops) calls w.

End ApiRuns.

Definition is_configure (call : ApiCall) : bool :=
  match call with
  | CallConfigure _ => true
  | _ => false
  end.

(** The working directory has nothing uncommitted: files, staging area and
    the tree of HEAD are the same. *)
Definition repo_clean (r : Git.Repo) : Prop :=
  Git.worktree r = Git.index r /\ Git.index r = Git.tree (Git.info (Git.HEAD r)).

(** In a trace, every apply call comes directly after the creation of a
    commit. *)
Definition apply_follows_commit (tr : list Event) : Prop :=
  forall n d cfg,
    tr !! n = Some (ApplyCalled d cfg) ->
    exists m c, n = S m /\ tr !! m = Some (CommitCreated c).

(** A request with its falsy values ([0], the empty string) replaced by
    [None]. *)
Definition without_falsy (r : PortConfigRequest) : PortConfigRequest :=
  {| device := device r;
     interface := interface r;
     vlan := truthy_int (vlan r);
     description := truthy_str (description r);
     mode := mode r;
     vni := truthy_int (vni r);
     vrf := truthy_str (vrf r) |}.

(** Device operations whose pre-check raises: an HTTP error of its own, and
    a plain failure. *)
Definition not_found_ops : DeviceOps :=
  {| op_pre_check_port := fun _ _ interface =>
       Raises (HTTPException 404 ("no such port: " +:+ interface));
     op_apply_config := op_apply_config nxos_ops |}.

Definition offline_ops : DeviceOps :=
  {| op_pre_check_port := fun _ device _ =>
       Raises (DeviceError ("unreachable: " +:+ device));
     op_apply_config := op_apply_config nxos_ops |}.

(** The README that [ensure_repo] writes, and the state in which every
    place that holds files still has it as written. *)
Definition README_file : string := CONFIG_REPO_PATH +:+ "/README.md".

Definition README_text : string :=
  "# Network Configuration Repository" +:+ PyStr.LF.

Definition readme_kept (r : Git.Repo) : Prop :=
  Git.worktree r !! README_file = Some README_text
  /\ Git.index r !! README_file = Some README_text
  /\ Git.tree (Git.info (Git.HEAD r)) !! README_file = Some README_text
  /\ forall h c, Git.objects r !! h = Some c ->
                 Git.tree (Git.info c) !! README_file = Some README_text.

(** * Properties *)

(** ** Strings and paths *)

Lemma config_file_ne_metadata_file `{pf : Platform} device interface :
  config_file device interface <> metadata_file device interface.
Proof.
  unfold config_file, metadata_file. intros H.
  repeat (apply String.app_inj in H). discriminate H.
Qed.

(** ** Running [commit_config] *)

Ltac run_py :=
  cbv beta iota zeta delta
    [bind ret raise try_except get_repo put_repo now emit log_event
     call_pre_check call_apply
     GitPython.write_file GitPython.index_add GitPython.index_commit
     GitPython.checkout GitPython.set_worktree GitPython.set_index];
  cbn [repo clock ticks trace fst snd
       Git.objects Git.HEAD Git.index Git.worktree Git.user_name].

Lemma commit_config_eq `{pf : Platform} device interface config user w :
  GitOpsManager.commit_config device interface config user w
  = (Returns (PyStr.take 7 (hexsha (next_commit device interface config user w))),
     after_commit device interface config user w).
Proof.
  unfold GitOpsManager.commit_config.
  fold (config_file device interface). fold (metadata_file device interface).
  pose proof (config_file_ne_metadata_file device interface) as Hne.
  run_py.
  rewrite lookup_insert_ne by congruence.
  rewrite lookup_insert_eq. run_py.
  rewrite lookup_insert_eq. run_py.
  reflexivity.
Qed.

(** ** Running [configure_port] *)

Lemma configure_port_with_eq `{pf : Platform} ops request w :
  configure_port_with ops request w =
  let d := device request in
  let i := interface request in
  let w1 := log_event (PreCheckCalled d i) w in
  match op_pre_check_port ops w d i with
  | Raises e => (Raises (as_http e), w1)
  | Returns pc =>
      if is_safe_to_configure pc then
        let config := NXOSOperations.generate_config request in
        let w2 := after_commit d i config "api_user" w1 in
        let w3 := log_event (ApplyCalled d config) w2 in
        match op_apply_config ops w2 d config with
        | Raises e => (Raises (as_http e), w3)
        | Returns false =>
            (Raises (HTTPException 500 "Failed to apply configuration"), w3)
        | Returns true =>
            (Returns
               {| success := true;
                  commit_hash :=
                    PyStr.take 7 (hexsha (next_commit d i config "api_user" w1));
                  timestamp := isoformat (clock w3 (ticks w3));
                  applied_config := config;
                  message := "Successfully configured " +:+ i +:+ " on " +:+ d |},
             tick w3)
        end
      else
        (Raises (HTTPException 400
                   "Port is not safe to configure. Check pre-check results."),
         w1)
  end.
Proof.
  unfold configure_port_with, try_except, bind at 1, call_pre_check.
  cbv zeta.
  destruct (op_pre_check_port ops w (device request) (interface request))
    as [pc|e]; [|destruct e; reflexivity].
  destruct (is_safe_to_configure pc); cbn [negb]; [|reflexivity].
  unfold bind at 1. rewrite commit_config_eq.
  unfold bind at 1, call_apply.
  destruct (op_apply_config ops _ _ _) as [[|]|e]; cbn [negb];
    [reflexivity | reflexivity | destruct e; reflexivity].
Qed.

Lemma configure_port_eq `{pf : Platform} request w :
  configure_port request w =
  let d := device request in
  let i := interface request in
  let config := NXOSOperations.generate_config request in
  let w1 := log_event (PreCheckCalled d i) w in
  let w3 := log_event (ApplyCalled d config) (after_commit d i config "api_user" w1) in
  (Returns
     {| success := true;
        commit_hash := PyStr.take 7 (hexsha (next_commit d i config "api_user" w1));
        timestamp := isoformat (clock w3 (ticks w3));
        applied_config := config;
        message := "Successfully configured " +:+ i +:+ " on " +:+ d |},
   tick w3).
Proof. unfold configure_port. rewrite configure_port_with_eq. reflexivity. Qed.

(** ** Pre-check *)

(** C10: [pre_check_port] returns one fixed result for every device and
    interface, whatever the world: the port exists, no MAC address is
    learned, the verdict is safe.  Consequently no configure request is
    stopped by the safety gate: every one of them goes on to commit and
    apply, and returns a response. *)
Theorem pre_check_port_is_constant `{pf : Platform} :
  (forall w w' d i d' i',
      op_pre_check_port nxos_ops w d i = op_pre_check_port nxos_ops w' d' i')
  /\ (forall w d i,
        exists r,
          op_pre_check_port nxos_ops w d i = Returns r
          /\ port_exists r = true
          /\ mac_addresses r = []
          /\ is_safe_to_configure r = true)
  /\ (forall request w,
        exists resp w' c,
          configure_port request w = (Returns resp, w')
          /\ trace w' = trace w ++ [PreCheckCalled (device request) (interface request);
                                    CommitCreated c;
                                    ApplyCalled (device request) (applied_config resp)]).
Proof.
  split; [reflexivity|]. split.
  - intros w d i. eexists; repeat split; reflexivity.
  - intros request w. rewrite configure_port_eq. cbv zeta.
    do 3 eexists. split; [reflexivity|].
    cbn [trace tick log_event after_commit applied_config].
    rewrite <- !app_assoc. reflexivity.
Qed.




(** ** The safety gate of [configure_port] *)

(** C2: when the pre-check verdict is unsafe, configure answers with the 400
    error and does nothing else: the repository is unchanged (no commit), and
    the only event is the pre-check call (no apply). *)
Theorem configure_rejects_unsafe `{pf : Platform} ops request w pc :
  op_pre_check_port ops w (device request) (interface request) = Returns pc ->
  is_safe_to_configure pc = false ->
  exists w',
    configure_port_with ops request w
    = (Raises (HTTPException 400
                 "Port is not safe to configure. Check pre-check results."), w')
    /\ repo w' = repo w
    /\ trace w' = trace w ++ [PreCheckCalled (device request) (interface request)]
    /\ (forall c, CommitCreated c ∉ drop (length (trace w)) (trace w'))
    /\ (forall d cfg, ApplyCalled d cfg ∉ drop (length (trace w)) (trace w')).
Proof.
  intros Hpc Hsafe. rewrite configure_port_with_eq. cbv zeta.
  rewrite Hpc, Hsafe. eexists; split; [reflexivity|].
  cbn [repo trace log_event]. rewrite drop_app_length.
  repeat split; intros; rewrite list_elem_of_singleton; discriminate.
Qed.

Lemma configure_rejects_unsafe_witness :
  exists w',
    @configure_port_with Demo.platform vetoing_ops ex_request Demo.world0
    = (Raises (HTTPException 400
                 "Port is not safe to configure. Check pre-check results."), w')
    /\ repo w' = repo Demo.world0
    /\ trace w' = trace Demo.world0 ++ [PreCheckCalled "leaf-01" "Eth1/1"]
    /\ (forall c, CommitCreated c ∉ drop (length (trace Demo.world0)) (trace w'))
    /\ (forall d cfg, ApplyCalled d cfg ∉ drop (length (trace Demo.world0)) (trace w')).
Proof.
  apply (@configure_rejects_unsafe Demo.platform vetoing_ops ex_request Demo.world0
           {| port_exists := true; admin_status := "up"; oper_status := "up";
              current_config :=
                current_config (NXOSOperations.pre_check_port "leaf-01" "Eth1/1");
              mac_addresses := ["aa:bb:cc:dd:ee:ff"];
              recommendations := ["MAC addresses learned - port carries traffic"];
              is_safe_to_configure := false |});
    reflexivity.
Defined.

(** ** History queries *)

Lemma get_history_eq `{pf : Platform} device limit w :
  GitOpsManager.get_history device limit w
  = (Returns
       (map GitOpsManager.commit_data
          (List.filter (GitOpsManager.selected device)
             (PyStr.slice_to (Git.iter_from (Git.HEAD (repo w))) limit))),
     w).
Proof. reflexivity. Qed.

Lemma filter_selected_None `{pf : Platform} (l : list Git.Commit) :
  List.filter (GitOpsManager.selected None) l = l.
Proof. induction l as [|c l IH]; [reflexivity|]. simpl. now rewrite IH. Qed.

Lemma slice_to_nonneg {A} (l : list A) limit :
  0 <= limit -> PyStr.slice_to l limit = firstn (Z.to_nat limit) l.
Proof.
  intros H. unfold PyStr.slice_to.
  destruct (Z.leb_spec 0 limit); [reflexivity | lia].
Qed.

Lemma slice_to_cons_pos {A} (x : A) (l : list A) limit :
  0 < limit -> PyStr.slice_to (x :: l) limit = x :: PyStr.slice_to l (limit - 1).
Proof.
  intros H. rewrite !slice_to_nonneg by lia.
  replace (Z.to_nat limit) with (S (Z.to_nat (limit - 1))) by lia.
  reflexivity.
Qed.

(** ** Commit before apply *)

(** C3: in every configure execution an apply call is preceded by the
    creation of the commit; and when the apply step does not report success
    (it returns false or raises), configure answers with an HTTP error while
    the repository stays exactly as the commit left it: HEAD is the new commit
    and the history starts with it (nothing rolls the commit back). *)
Theorem commit_precedes_apply `{pf : Platform} ops request w :
  let run := configure_port_with ops request w in
  let d := device request in
  let i := interface request in
  let config := NXOSOperations.generate_config request in
  let w1 := log_event (PreCheckCalled d i) w in
  let w2 := after_commit d i config "api_user" w1 in
  let c := next_commit d i config "api_user" w1 in
  (exists evs,
      trace (snd run) = trace w ++ evs
      /\ forall n d' cfg,
          evs !! n = Some (ApplyCalled d' cfg) ->
          exists m, (m < n)%nat /\ evs !! m = Some (CommitCreated c))
  /\ (forall pc,
        op_pre_check_port ops w d i = Returns pc ->
        is_safe_to_configure pc = true ->
        op_apply_config ops w2 d config <> Returns true ->
        (exists st detail, fst run = Raises (HTTPException st detail))
        /\ (op_apply_config ops w2 d config = Returns false ->
            fst run = Raises (HTTPException 500 "Failed to apply configuration"))
        /\ repo (snd run) = repo w2
        /\ Git.HEAD (repo (snd run)) = c
        /\ is_Some (Git.objects (repo (snd run)) !! hexsha c)
        /\ forall limit, 0 < limit ->
             exists older,
               fst (GitOpsManager.get_history None limit (snd run))
               = Returns (GitOpsManager.commit_data c :: older)).
Proof.
  cbv zeta. rewrite configure_port_with_eq. cbv zeta. split.
  - destruct (op_pre_check_port ops w (device request) (interface request))
      as [pc|e].
    + destruct (is_safe_to_configure pc).
      * exists [PreCheckCalled (device request) (interface request);
                CommitCreated
                  (next_commit (device request) (interface request)
                     (NXOSOperations.generate_config request) "api_user"
                     (log_event (PreCheckCalled (device request) (interface request)) w));
                ApplyCalled (device request) (NXOSOperations.generate_config request)].
        split.
        -- destruct (op_apply_config ops _ _ _) as [[|]|e];
             cbn [snd trace tick log_event after_commit];
             rewrite <- !app_assoc; reflexivity.
        -- intros [|[|[|n]]] d' cfg Hn; try discriminate Hn.
           exists 1%nat. split; [lia | reflexivity].
      * exists [PreCheckCalled (device request) (interface request)].
        split; [reflexivity|].
        intros [|n] d' cfg Hn; discriminate Hn.
    + exists [PreCheckCalled (device request) (interface request)].
      split; [reflexivity|].
      intros [|n] d' cfg Hn; discriminate Hn.
  - intros pc Hpc Hsafe Hfail. rewrite Hpc, Hsafe.
    assert (Hstore : forall w0,
               repo w0 = repo (after_commit (device request) (interface request)
                                 (NXOSOperations.generate_config request) "api_user"
                                 (log_event (PreCheckCalled (device request) (interface request)) w)) ->
               is_Some (Git.objects (repo w0)
                          !! hexsha (next_commit (device request) (interface request)
                                       (NXOSOperations.generate_config request) "api_user"
                                       (log_event (PreCheckCalled (device request) (interface request)) w)))).
    { intros w0 ->. cbn [repo after_commit Git.objects]. unfold GitPython.store.
      destruct (Git.objects _ !! _) eqn:E; [rewrite E; eauto|].
      rewrite lookup_insert_eq. eauto. }
    destruct (op_apply_config ops _ _ _) as [[|]|e]; [congruence| |].
    + cbn [fst snd]. split; [eauto|]. split; [reflexivity|].
      split; [reflexivity|]. split; [reflexivity|]. split; [apply Hstore; reflexivity|].
      intros limit Hl. rewrite get_history_eq. cbn [fst].
      cbn [repo log_event after_commit Git.HEAD]. cbn [Git.iter_from next_commit].
      rewrite slice_to_cons_pos by assumption. rewrite filter_selected_None.
      eexists. reflexivity.
    + cbn [fst snd]. split; [destruct e; cbn [as_http]; eauto|].
      split; [discriminate|].
      split; [reflexivity|]. split; [reflexivity|]. split; [apply Hstore; reflexivity|].
      intros limit Hl. rewrite get_history_eq. cbn [fst].
      cbn [repo log_event after_commit Git.HEAD]. cbn [Git.iter_from next_commit].
      rewrite slice_to_cons_pos by assumption. rewrite filter_selected_None.
      eexists. reflexivity.
Qed.

(** The failing paths of C3 on concrete data: an apply step that returns
    false, and one that raises. *)
Example apply_failure_keeps_commit :
  let run := @configure_port_with Demo.platform failing_ops ex_request Demo.world0 in
  fst run = Raises (HTTPException 500 "Failed to apply configuration")
  /\ History.message <$>
       match fst (@GitOpsManager.get_history Demo.platform None 50 (snd run)) with
       | Returns h => h
       | Raises _ => []
       end = ["Configure leaf-01 Eth1/1"; "Initial commit"].
Proof. vm_compute. split; reflexivity. Qed.

Example apply_exception_keeps_commit :
  let run := @configure_port_with Demo.platform unreachable_ops ex_request Demo.world0 in
  fst run = Raises (HTTPException 500 "timeout: leaf-01")
  /\ History.message <$>
       match fst (@GitOpsManager.get_history Demo.platform None 50 (snd run)) with
       | Returns h => h
       | Raises _ => []
       end = ["Configure leaf-01 Eth1/1"; "Initial commit"].
Proof. vm_compute. split; reflexivity. Qed.

(** ** Configuration synthesis *)

Lemma config_lines_blocks request :
  NXOSOperations.config_lines request = Blocks.all request.
Proof.
  unfold NXOSOperations.config_lines, Blocks.all, Blocks.selector,
    Blocks.description_lines, Blocks.mode_lines, Blocks.vlan_line,
    Blocks.vxlan_lines, Blocks.vrf_lines.
  cbv zeta.
  destruct (truthy_str (description request));
    destruct (String.eqb (mode request) "access");
    destruct (String.eqb (mode request) "trunk");
    destruct (truthy_int (vlan request));
    destruct (truthy_int (vni request));
    destruct (truthy_str (vrf request));
    reflexivity.
Qed.

(** C7: the rendered text is a function of the request alone, and within the
    request of the interface, description, mode, VLAN, VNI and VRF: two
    requests that agree on these render to the same text, and the text a
    configure call reports is that text in every world (whatever the clock
    reads and the repository holds). *)
Theorem generate_config_deterministic `{pf : Platform} r1 r2 :
  interface r1 = interface r2 ->
  description r1 = description r2 ->
  mode r1 = mode r2 ->
  vlan r1 = vlan r2 ->
  vni r1 = vni r2 ->
  vrf r1 = vrf r2 ->
  NXOSOperations.generate_config r1 = NXOSOperations.generate_config r2
  /\ forall w1 w2,
      rendered_by_configure r1 w1 = Some (NXOSOperations.generate_config r1)
      /\ rendered_by_configure r2 w2 = rendered_by_configure r1 w1.
Proof.
  intros Hi Hd Hm Hv Hn Hf.
  assert (E : NXOSOperations.generate_config r1 = NXOSOperations.generate_config r2).
  { unfold NXOSOperations.generate_config, NXOSOperations.config_lines.
    now rewrite Hi, Hd, Hm, Hv, Hn, Hf. }
  split; [exact E|].
  intros w1 w2. unfold rendered_by_configure.
  rewrite !configure_port_eq. cbn [fst applied_config].
  now rewrite E.
Qed.

Lemma generate_config_deterministic_witness :
  NXOSOperations.generate_config ex_request
  = NXOSOperations.generate_config
      {| device := "leaf-02"; interface := "Eth1/1"; vlan := Some 10;
         description := Some "Server Link"; mode := "access";
         vni := None; vrf := None |}
  /\ forall w1 w2,
      @rendered_by_configure Demo.platform ex_request w1
      = Some (NXOSOperations.generate_config ex_request)
      /\ @rendered_by_configure Demo.platform
           {| device := "leaf-02"; interface := "Eth1/1"; vlan := Some 10;
              description := Some "Server Link"; mode := "access";
              vni := None; vrf := None |} w2
         = @rendered_by_configure Demo.platform ex_request w1.
Proof.
  apply (@generate_config_deterministic Demo.platform ex_request
           {| device := "leaf-02"; interface := "Eth1/1"; vlan := Some 10;
              description := Some "Server Link"; mode := "access";
              vni := None; vrf := None |}); reflexivity.
Defined.

(** C8: the command lines come in the fixed order interface selector,
    description (if any), switchport, the lines of the mode (access: mode and
    VLAN; trunk: mode and allowed VLAN), the VXLAN block (if any), the VRF
    membership (if any), no shutdown; the selector is the first line and no
    shutdown the last.  The access example of the design text renders to the
    six lines below, among them interface Eth1/1, switchport mode access,
    switchport access vlan 10 and no shutdown. *)
Theorem config_lines_in_fixed_order request :
  NXOSOperations.config_lines request
  = Blocks.selector request ++ Blocks.description_lines request
      ++ ["  switchport"] ++ Blocks.mode_lines request
      ++ Blocks.vxlan_lines request ++ Blocks.vrf_lines request
      ++ ["  no shutdown"]
  /\ NXOSOperations.generate_config request
     = PyStr.join PyStr.LF (Blocks.all request)
  /\ head (NXOSOperations.config_lines request)
     = Some ("interface " +:+ interface request)
  /\ last (NXOSOperations.config_lines request) = Some "  no shutdown"
  /\ NXOSOperations.config_lines ex_request
     = ["interface Eth1/1"; "  description Server Link"; "  switchport";
        "  switchport mode access"; "  switchport access vlan 10";
        "  no shutdown"]
  /\ Forall (fun line =>
               PyStr.contains line (NXOSOperations.generate_config ex_request) = true)
       ["interface Eth1/1"; "switchport mode access";
        "switchport access vlan 10"; "no shutdown"].
Proof.
  split; [apply config_lines_blocks|].
  split; [unfold NXOSOperations.generate_config; now rewrite config_lines_blocks|].
  split; [rewrite config_lines_blocks; reflexivity|].
  split.
  - rewrite config_lines_blocks. unfold Blocks.all.
    rewrite !app_assoc. apply last_snoc.
  - split; [reflexivity|]. repeat constructor.
Qed.

(** ** Validation at the API boundary *)


(** What those three requests render to. *)
Example malformed_requests_rendered :
  NXOSOperations.config_lines request_vlan_5000
  = ["interface Eth1/1"; "  switchport"; "  switchport mode access";
     "  switchport access vlan 5000"; "  no shutdown"]
  /\ NXOSOperations.config_lines request_vni_negative
     = ["interface Eth1/1"; "  switchport"; "  switchport mode trunk";
        "  switchport trunk allowed vlan 10"; "  vxlan"; "    vni -7";
        "  no shutdown"]
  /\ NXOSOperations.config_lines request_mode_routed
     = ["interface Eth1/1"; "  switchport"; "  no shutdown"].
Proof. repeat split; reflexivity. Qed.


(** ** Running [rollback] *)

Lemma rollback_eq `{pf : Platform} rev w :
  GitOpsManager.rollback rev w
  = match rev_parse (repo w) rev with
    | Some c => (Returns true, after_checkout rev c w)
    | None => (Returns false, w)
    end.
Proof.
  unfold GitOpsManager.rollback. run_py.
  destruct (rev_parse (repo w) rev); reflexivity.
Qed.

Lemma rollback_config_eq `{pf : Platform} rev w :
  rollback_config rev w
  = match rev_parse (repo w) rev with
    | Some c =>
        (Returns {| Rollback.success := true;
                    Rollback.message :=
                      "Successfully rolled back to commit " +:+ rev;
                    Rollback.commit_hash := rev |},
         after_checkout rev c w)
    | None => (Raises (HTTPException 500 "500: Rollback failed"), w)
    end.
Proof.
  unfold rollback_config, try_except, bind at 1. rewrite rollback_eq.
  destruct (rev_parse (repo w) rev); reflexivity.
Qed.

Lemma rollback_config_objects `{pf : Platform} rev w :
  Git.objects (repo (snd (rollback_config rev w))) = Git.objects (repo w).
Proof.
  rewrite rollback_config_eq.
  destruct (rev_parse (repo w) rev); reflexivity.
Qed.

(** ** Rollback *)


(** The same scenario on the reference platform: the rollback succeeds, the
    history then shows the target on top, and a rollback to an unknown
    identifier is answered with a 500. *)
Example rollback_scenario :
  let run1 := @configure_port Demo.platform ex_request Demo.world0 in
  let run2 := @rollback_config Demo.platform "0ffffff" (snd run1) in
  fst run2
  = Returns {| Rollback.success := true;
               Rollback.message := "Successfully rolled back to commit 0ffffff";
               Rollback.commit_hash := "0ffffff" |}
  /\ History.message <$>
       match fst (@get_history Demo.platform None 50 (snd run2)) with
       | Returns h => h
       | Raises _ => []
       end = ["Initial commit"]
  /\ size (Git.objects (repo (snd run2))) = 2%nat
  /\ fst (@rollback_config Demo.platform "abcdef0" (snd run1))
     = Raises (HTTPException 500 "500: Rollback failed").
Proof. vm_compute. repeat split; reflexivity. Qed.



(** ** Commit identifiers *)

Lemma store_lookup_old h c (db : gmap string Git.Commit) h' c' :
  db !! h' = Some c' -> GitPython.store h c db !! h' = Some c'.
Proof.
  intros H. unfold GitPython.store.
  destruct (db !! h) eqn:E; [exact H|].
  rewrite lookup_insert_ne; [exact H | congruence].
Qed.

(** The commit object depends on the world only through the staged files,
    HEAD, the author name and the two clock readings. *)
Lemma next_commit_ext `{pf : Platform} d i cfg u w w' :
  Git.index (repo w) = Git.index (repo w') ->
  Git.HEAD (repo w) = Git.HEAD (repo w') ->
  Git.user_name (repo w) = Git.user_name (repo w') ->
  clock w (ticks w) = clock w' (ticks w') ->
  clock w (S (ticks w)) = clock w' (S (ticks w')) ->
  next_commit d i cfg u w = next_commit d i cfg u w'.
Proof.
  intros Hi Hh Hu Ht Ht'. unfold next_commit, with_files, metadata_text.
  now rewrite Hi, Hh, Hu, Ht, Ht'.
Qed.

Lemma depth_iter_from c c' :
  c' ∈ Git.iter_from c -> (Git.depth c' <= Git.depth c)%nat.
Proof.
  induction c as [info|info p IH]; cbn [Git.iter_from Git.depth].
  - intros H. apply list_elem_of_singleton in H as ->. reflexivity.
  - intros H. apply elem_of_cons in H as [->|H]; [reflexivity|].
    specialize (IH H). lia.
Qed.

(** The scenario behind the refutation of C4: on a repository whose clock
    shows one instant, configure, roll back to the initial commit by its full
    digest, configure the same request again. *)
Lemma frozen_clock_scenario (pf : Platform) :
  let w0 := @startup pf None "netops" frozen_clock in
  let run1 := configure_port ex_request w0 in
  let run2 := rollback_config (hexsha (Git.HEAD (repo w0))) (snd run1) in
  let run3 := configure_port ex_request (snd run2) in
  (exists ok, fst run2 = Returns ok)
  /\ exists resp1 resp3,
      fst run1 = Returns resp1 /\ fst run3 = Returns resp3
      /\ commit_hash resp1 = commit_hash resp3.
Proof.
  cbv zeta.
  set (w0 := @startup pf None "netops" frozen_clock).
  rewrite (configure_port_eq ex_request w0). cbv zeta. cbn [snd fst].
  set (w1 := tick _).
  assert (Hparse : rev_parse (repo w1) (hexsha (Git.HEAD (repo w0)))
                   = Some (Git.HEAD (repo w0))).
  { apply rev_parse_digest.
    subst w1. cbn [repo tick log_event after_commit Git.objects].
    apply store_lookup_old. subst w0.
    cbn [repo startup GitOpsManager.ensure_repo Git.objects Git.HEAD].
    apply lookup_singleton_eq. }
  rewrite rollback_config_eq, Hparse. cbn [fst snd].
  split; [eauto|].
  rewrite configure_port_eq. cbv zeta. cbn [fst].
  do 2 eexists. split; [reflexivity|]. split; [reflexivity|].
  cbn [commit_hash]. reflexivity.
Qed.

(** C4, refuted as stated: in that scenario the two configure calls commit
    the same content, and on no platform do they return different
    identifiers. *)
Lemma identical_commits_share_an_identifier :
  ~ exists (pf : Platform) (resp1 resp3 : ConfigurationResponse),
      let w0 := @startup pf None "netops" frozen_clock in
      let run1 := @configure_port pf ex_request w0 in
      let run2 := rollback_config (hexsha (Git.HEAD (repo w0))) (snd run1) in
      let run3 := @configure_port pf ex_request (snd run2) in
      fst run1 = Returns resp1
      /\ fst run3 = Returns resp3
      /\ commit_hash resp1 <> commit_hash resp3.
Proof.
  intros (pf & resp1 & resp3 & H1 & H3 & Hne).
  destruct (frozen_clock_scenario pf) as (_ & r1 & r3 & E1 & E3 & E).
  cbv zeta in *. rewrite H1 in E1. rewrite H3 in E3.
  injection E1 as <-. injection E3 as <-. contradiction.
Qed.

(** The scenario run on the reference platform. *)
Example frozen_clock_scenario_run :
  let w0 := @startup Demo.platform None "netops" frozen_clock in
  let run1 := @configure_port Demo.platform ex_request w0 in
  let run2 := @rollback_config Demo.platform
                (Demo.digest (Git.HEAD (repo w0))) (snd run1) in
  let run3 := @configure_port Demo.platform ex_request (snd run2) in
  (commit_hash <$> match fst run1 with Returns r => Some r | Raises _ => None end)
  = Some "1ffffff"
  /\ (commit_hash <$> match fst run3 with Returns r => Some r | Raises _ => None end)
     = Some "1ffffff".
Proof. vm_compute. split; reflexivity. Qed.

(** C4, as the code has it: a commit returns the first seven characters of
    the digest of the commit object it creates, an object made of the staged
    tree, the message, the author, the commit time and, as parent, the
    previous HEAD; that object differs from every commit of the history it is
    put on; identifiers are stable, since neither a commit nor a rollback
    changes the object stored under a digest; and the identifier is a function
    of staged files, HEAD, author and clock readings, so that commits agreeing
    on these receive the same identifier. *)
Theorem commit_identifier_is_short_digest `{pf : Platform} d i cfg user w :
  let c := next_commit d i cfg user w in
  let run := GitOpsManager.commit_config d i cfg user w in
  fst run = Returns (PyStr.take 7 (hexsha c))
  /\ Git.HEAD (repo (snd run)) = c
  /\ trace (snd run) = trace w ++ [CommitCreated c]
  /\ (c ∉ Git.iter_from (Git.HEAD (repo w)))
  /\ (forall h c', Git.objects (repo w) !! h = Some c' ->
                   Git.objects (repo (snd run)) !! h = Some c')
  /\ (forall rev,
        Git.objects (repo (snd (rollback_config rev w))) = Git.objects (repo w))
  /\ (forall w',
        Git.index (repo w') = Git.index (repo w) ->
        Git.HEAD (repo w') = Git.HEAD (repo w) ->
        Git.user_name (repo w') = Git.user_name (repo w) ->
        clock w' (ticks w') = clock w (ticks w) ->
        clock w' (S (ticks w')) = clock w (S (ticks w)) ->
        fst (GitOpsManager.commit_config d i cfg user w') = fst run).
Proof.
  cbv zeta. rewrite commit_config_eq. cbn [fst snd].
  split; [reflexivity|]. split; [reflexivity|]. split; [reflexivity|].
  split; [|split; [|split]].
  - intros Hin. apply depth_iter_from in Hin.
    cbn [next_commit Git.depth] in Hin. lia.
  - intros h c' H. cbn [repo after_commit Git.objects].
    apply store_lookup_old, H.
  - intros rev. apply rollback_config_objects.
  - intros w' Hi Hh Hu Ht Ht'. rewrite commit_config_eq. cbn [fst].
    do 3 f_equal. apply next_commit_ext; assumption.
Qed.

(** ** History *)

Lemma append_cons a s t : String a s +:+ t = String a (s +:+ t).
Proof. reflexivity. Qed.

Lemma prefix_append s t : String.prefix s (s +:+ t) = true.
Proof.
  induction s as [|a s IH]; [destruct t; reflexivity|].
  rewrite append_cons. simpl. destruct (ascii_dec a a); [exact IH | congruence].
Qed.

Lemma contains_prefix sub s : String.prefix sub s = true -> PyStr.contains sub s = true.
Proof. intros H. destruct s; cbn [PyStr.contains]; rewrite H; reflexivity. Qed.

Lemma contains_append_r sub p s :
  PyStr.contains sub s = true -> PyStr.contains sub (p +:+ s) = true.
Proof.
  intros H. induction p as [|a p IH]; [exact H|].
  rewrite append_cons. cbn [PyStr.contains]. rewrite IH. apply orb_true_r.
Qed.

(** A commit made for a device has the device in its message. *)
Lemma contains_device d i :
  PyStr.contains d ("Configure " +:+ d +:+ " " +:+ i) = true.
Proof. apply contains_append_r, contains_prefix, prefix_append. Qed.

Lemma filter_sublist {A} (f : A -> bool) (l : list A) : sublist (List.filter f l) l.
Proof.
  induction l as [|x l IH]; [constructor|]. simpl.
  destruct (f x); constructor; exact IH.
Qed.

Lemma commit_each_eq `{pf : Platform} calls w :
  commit_each calls w
  = (Returns (map (fun c => PyStr.take 7 (hexsha c)) (commits_of calls w)),
     world_after calls w).
Proof.
  revert w; induction calls as [|[[[d i] cfg] u] calls IH]; intros w;
    [reflexivity|].
  cbn [commit_each commits_of world_after map].
  unfold bind at 1. rewrite commit_config_eq.
  unfold bind at 1. rewrite IH. reflexivity.
Qed.

Lemma iter_from_world_after `{pf : Platform} calls w :
  Git.iter_from (Git.HEAD (repo (world_after calls w)))
  = rev (commits_of calls w) ++ Git.iter_from (Git.HEAD (repo w)).
Proof.
  revert w; induction calls as [|[[[d i] cfg] u] calls IH]; intros w;
    [reflexivity|].
  cbn [commits_of world_after rev]. rewrite IH, <- app_assoc. reflexivity.
Qed.

Lemma trace_world_after `{pf : Platform} calls w :
  trace (world_after calls w)
  = trace w ++ map CommitCreated (commits_of calls w).
Proof.
  revert w; induction calls as [|[[[d i] cfg] u] calls IH]; intros w.
  - cbn. now rewrite app_nil_r.
  - cbn [commits_of world_after map]. rewrite IH.
    cbn [trace after_commit]. rewrite <- app_assoc. reflexivity.
Qed.

Lemma messages_of_commits `{pf : Platform} calls w :
  map (fun c => Git.message (Git.info c)) (commits_of calls w)
  = map (fun call : string * string * string * string =>
           "Configure " +:+ call.1.1.1 +:+ " " +:+ call.1.1.2) calls.
Proof.
  revert w; induction calls as [|[[[d i] cfg] u] calls IH]; intros w;
    [reflexivity|].
  cbn [commits_of map]. rewrite IH. reflexivity.
Qed.

(** C6, refuted as stated, on a fresh repository after one configure call
    for leaf-10.  The history asked for device leaf-1, for which nothing was
    ever committed, is empty on no platform (it holds the commit of leaf-10);
    and with limit -1 the result, which lists one commit, is not bounded by
    the limit. *)
Lemma history_neither_filtered_nor_bounded :
  (~ exists pf : Platform,
       fst (@get_history pf (Some "leaf-1") 50
              (snd (@configure_port pf request_leaf_10
                      (@startup pf None "netops" Demo.clock))))
       = Returns [])
  /\ (~ exists (pf : Platform) (entries : list History.entry),
         fst (@get_history pf None (-1)
                (snd (@configure_port pf request_leaf_10
                        (@startup pf None "netops" Demo.clock))))
         = Returns entries
         /\ Z.of_nat (length entries) <= -1).
Proof.
  split.
  - intros (pf & H). rewrite configure_port_eq in H. discriminate H.
  - intros (pf & entries & _ & H). lia.
Qed.

(** What those two queries return on the reference platform. *)
Example history_queries_run :
  let w := snd (@configure_port Demo.platform request_leaf_10 Demo.world0) in
  History.message <$>
    match fst (@get_history Demo.platform (Some "leaf-1") 50 w) with
    | Returns h => h
    | Raises _ => []
    end = ["Configure leaf-10 Eth1/1"]
  /\ History.message <$>
       match fst (@get_history Demo.platform None (-1) w) with
       | Returns h => h
       | Raises _ => []
       end = ["Configure leaf-10 Eth1/1"].
Proof. vm_compute. split; reflexivity. Qed.

Lemma get_history_endpoint_eq `{pf : Platform} device limit w :
  get_history device limit w = GitOpsManager.get_history device limit w.
Proof. reflexivity. Qed.

(** C6, as the code has it.  After any sequence of commits put on a
    repository, the history without a device is the chain of commits from
    HEAD, newest first (the new commits in reverse commit order, then what
    was there before), cut by the Python slice [[:limit]]: its first [limit]
    entries when [limit] is not negative.  With a device the result is a
    sub-list of that, in the same order, so it has at most [limit] entries
    for a non-negative [limit], and it keeps every commit of the cut that was
    made for the device. *)
Theorem history_is_newest_first `{pf : Platform} calls w device limit :
  let w' := world_after calls w in
  let chain := rev (commits_of calls w) ++ Git.iter_from (Git.HEAD (repo w)) in
  commit_each calls w
  = (Returns (map (fun c => PyStr.take 7 (hexsha c)) (commits_of calls w)), w')
  /\ trace w' = trace w ++ map CommitCreated (commits_of calls w)
  /\ map (fun c => Git.message (Git.info c)) (commits_of calls w)
     = map (fun call : string * string * string * string =>
              "Configure " +:+ call.1.1.1 +:+ " " +:+ call.1.1.2) calls
  /\ get_history None limit w'
     = (Returns (map GitOpsManager.commit_data (PyStr.slice_to chain limit)), w')
  /\ (0 <= limit -> PyStr.slice_to chain limit = firstn (Z.to_nat limit) chain)
  /\ exists kept,
      get_history device limit w'
      = (Returns (map GitOpsManager.commit_data kept), w')
      /\ sublist kept (PyStr.slice_to chain limit)
      /\ (0 <= limit -> (length kept <= Z.to_nat limit)%nat)
      /\ forall c d i,
          c ∈ PyStr.slice_to chain limit ->
          device = Some d ->
          Git.message (Git.info c) = "Configure " +:+ d +:+ " " +:+ i ->
          c ∈ kept.
Proof.
  cbv zeta.
  split; [apply commit_each_eq|].
  split; [apply trace_world_after|].
  split; [apply messages_of_commits|].
  rewrite !get_history_endpoint_eq, !get_history_eq, iter_from_world_after.
  rewrite filter_selected_None.
  split; [reflexivity|].
  split; [apply slice_to_nonneg|].
  eexists. split; [reflexivity|].
  split; [apply filter_sublist|].
  split.
  - intros Hl.
    etransitivity; [apply sublist_length, filter_sublist|].
    rewrite slice_to_nonneg by assumption. apply firstn_le_length.
  - intros c d i Hc -> Hmsg.
    apply list_elem_of_In, filter_In. split; [apply list_elem_of_In, Hc|].
    unfold GitOpsManager.selected, truthy_str.
    destruct (PyStr.truthy d); [|reflexivity].
    rewrite Hmsg. apply contains_device.
Qed.

(** The history of three commits on the reference platform, newest first. *)
Example history_of_three_commits :
  let calls := [("leaf-01", "Eth1/1", "a", "api_user");
                ("leaf-02", "Eth1/2", "b", "api_user");
                ("leaf-01", "Eth1/3", "c", "api_user")] in
  let w' := snd (@commit_each Demo.platform calls Demo.world0) in
  let messages (r : Result (list History.entry) * World) :=
    History.message <$> match fst r with Returns h => h | Raises _ => [] end in
  messages (@get_history Demo.platform None 50 w')
  = ["Configure leaf-01 Eth1/3"; "Configure leaf-02 Eth1/2";
     "Configure leaf-01 Eth1/1"; "Initial commit"]
  /\ messages (@get_history Demo.platform None 2 w')
     = ["Configure leaf-01 Eth1/3"; "Configure leaf-02 Eth1/2"]
  /\ messages (@get_history Demo.platform (Some "leaf-01") 50 w')
     = ["Configure leaf-01 Eth1/3"; "Configure leaf-01 Eth1/1"]
  /\ messages (@get_history Demo.platform (Some "leaf-02") 1 w') = [].
Proof. vm_compute. repeat split; reflexivity. Qed.

(** * Further properties of the code *)

(** ** Every route, one step *)

Lemma pre_check_port_with_eq ops d i w :
  pre_check_port_with ops d i w
  = (match op_pre_check_port ops w d i with
     | Returns r => Returns r
     | Raises e => Raises (HTTPException 500 (str_exc e))
     end,
     log_event (PreCheckCalled d i) w).
Proof.
  unfold pre_check_port_with, try_except, call_pre_check, raise.
  destruct (op_pre_check_port ops w d i); reflexivity.
Qed.

(** What one call does to the repository and to the trace: nothing to the
    repository, or one commit, or one checkout; and to the trace it adds
    nothing, a pre-check, or a pre-check, a commit and an apply. *)
Lemma api_step_cases `{pf : Platform} ops w call :
  (repo (api_step ops w call) = repo w
   \/ (exists d i cfg u w0,
         repo w0 = repo w
         /\ repo (api_step ops w call) = repo (after_commit d i cfg u w0)
         /\ is_configure call = true)
   \/ (exists rev c,
         rev_parse (repo w) rev = Some c
         /\ repo (api_step ops w call) = repo (after_checkout rev c w)))
  /\ (exists evs,
        trace (api_step ops w call) = trace w ++ evs
        /\ (evs = []
            \/ (exists d i, evs = [PreCheckCalled d i])
            \/ (exists d i c cfg,
                  evs = [PreCheckCalled d i; CommitCreated c; ApplyCalled d cfg]))).
Proof.
  destruct call as [d i|request|d limit|rev]; cbn [api_step is_configure].
  - rewrite pre_check_port_with_eq. cbn [snd repo trace log_event].
    split; [left; reflexivity|]. eexists; split; [reflexivity|]. right; left; eauto.
  - rewrite configure_port_with_eq. cbv zeta.
    destruct (op_pre_check_port ops w _ _) as [pc|e].
    + destruct (is_safe_to_configure pc).
      * split.
        -- right; left.
           exists (device request), (interface request),
             (NXOSOperations.generate_config request), "api_user",
             (log_event (PreCheckCalled (device request) (interface request)) w).
           split; [reflexivity|]. split; [|reflexivity].
           destruct (op_apply_config ops _ _ _) as [[|]|e]; reflexivity.
        -- eexists. split.
           ++ destruct (op_apply_config ops _ _ _) as [[|]|e];
                cbn [snd trace tick log_event after_commit];
                rewrite <- !app_assoc; reflexivity.
           ++ right; right. do 4 eexists. reflexivity.
      * cbn [snd repo trace log_event]. split; [left; reflexivity|].
        eexists; split; [reflexivity|]. right; left; eauto.
    + cbn [snd repo trace log_event]. split; [left; reflexivity|].
      eexists; split; [reflexivity|]. right; left; eauto.
  - cbn. split; [left; reflexivity|]. exists []. rewrite app_nil_r. eauto.
  - rewrite rollback_config_eq.
    destruct (rev_parse (repo w) rev) as [c|] eqn:E; cbn [snd].
    + split; [right; right; eauto|]. exists []. cbn. rewrite app_nil_r. eauto.
    + split; [left; reflexivity|]. exists []. rewrite app_nil_r. eauto.
Qed.

Lemma api_run_snoc `{pf : Platform} ops calls call w :
  api_run ops (calls ++ [call]) w = api_step ops (api_run ops calls w) call.
Proof. unfold api_run. rewrite fold_left_app. reflexivity. Qed.

(** An invariant of the repository kept by commits and checkouts is kept by
    every sequence of calls. *)
Lemma api_run_repo_invariant `{pf : Platform} (P : Git.Repo -> Prop) ops calls w :
  (forall d i cfg u w0, P (repo w0) -> P (repo (after_commit d i cfg u w0))) ->
  (forall rev c w0,
      rev_parse (repo w0) rev = Some c ->
      P (repo w0) -> P (repo (after_checkout rev c w0))) ->
  P (repo w) -> P (repo (api_run ops calls w)).
Proof.
  intros Hcommit Hcheckout Hw.
  induction calls as [|call calls IH] using rev_ind; [exact Hw|].
  rewrite api_run_snoc.
  destruct (api_step_cases ops (api_run ops calls w) call)
    as [[E|[(d & i & cfg & u & w0 & E0 & E & _)|(rev & c & Hrev & E)]] _];
    rewrite E.
  - exact IH.
  - apply Hcommit. rewrite E0. exact IH.
  - apply Hcheckout; [exact Hrev | exact IH].
Qed.

(** ** The repository at start-up *)

(** [ensure_repo] leaves an existing repository exactly as it is, so it
    is idempotent; on a missing path it creates a repository that holds the
    README only, with nothing uncommitted, one stored object (the initial
    commit, under its digest) and a history of that single commit, authored
    by the configured user and dated by the clock in whole seconds. *)
Lemma ensure_repo_fresh_or_untouched `{pf : Platform} user t :
  let r := GitOpsManager.ensure_repo None user t in
  (forall r0 user' t', GitOpsManager.ensure_repo (Some r0) user' t' = r0)
  /\ (forall user' t', GitOpsManager.ensure_repo (Some r) user' t' = r)
  /\ repo_clean r
  /\ Git.worktree r
     = {[ CONFIG_REPO_PATH +:+ "/README.md"
          := "# Network Configuration Repository" +:+ PyStr.LF ]}
  /\ Git.objects r = {[ hexsha (Git.HEAD r) := Git.HEAD r ]}
  /\ Git.iter_from (Git.HEAD r) = [Git.HEAD r]
  /\ GitOpsManager.commit_data (Git.HEAD r)
     = {| History.commit_hash := PyStr.take 7 (hexsha (Git.HEAD r));
          History.message := "Initial commit";
          History.timestamp := isoformat (t / 1000000 * 1000000);
          History.author := user |}.
Proof. cbv zeta. repeat split. Qed.

Lemma README_file_ne_files `{pf : Platform} d i :
  config_file d i <> README_file /\ metadata_file d i <> README_file.
Proof.
  split; unfold config_file, metadata_file, README_file, CONFIG_REPO_PATH;
    intros H; cbv beta iota delta [String.append] in H; discriminate H.
Qed.

Lemma with_files_README `{pf : Platform} d i cfg u w (files : gmap string string) :
  with_files d i cfg u w files !! README_file = files !! README_file.
Proof.
  destruct (README_file_ne_files d i) as [Hc Hm].
  unfold with_files. rewrite !lookup_insert_ne by assumption. reflexivity.
Qed.

Lemma after_commit_readme `{pf : Platform} d i cfg u w :
  readme_kept (repo w) -> readme_kept (repo (after_commit d i cfg u w)).
Proof.
  intros (Hwt & Hix & Hhd & Hdb).
  assert (Hnew : Git.tree (Git.info (next_commit d i cfg u w)) !! README_file
                 = Some README_text).
  { cbn [next_commit Git.info Git.tree]. now rewrite with_files_README. }
  repeat split;
    cbn [repo after_commit Git.worktree Git.index Git.HEAD Git.objects].
  - now rewrite with_files_README.
  - now rewrite with_files_README.
  - exact Hnew.
  - intros h c. unfold GitPython.store.
    destruct (Git.objects (repo w) !! hexsha (next_commit d i cfg u w)) eqn:E.
    + apply Hdb.
    + intros H. apply lookup_insert_Some in H as [[_ <-]|[_ H]];
        [exact Hnew | exact (Hdb h c H)].
Qed.

(** X1: the README written when the repository is created is never changed
    or removed by the API.  After any sequence of pre-check, configure,
    history and rollback calls on a repository created at start-up, with any
    device operations, the working directory, the staging area, the tree of
    HEAD and the tree of every stored commit hold it with its first
    content: configure writes under [devices/] only, and a rollback only
    reaches stored commits. *)
Theorem api_run_keeps_README `{pf : Platform} ops calls user clk :
  readme_kept (repo (api_run ops calls (startup None user clk))).
Proof.
  apply (api_run_repo_invariant readme_kept).
  - intros d i cfg u w0. apply after_commit_readme.
  - intros rev c w0 Hrev (_ & _ & _ & Hdb).
    apply rev_parse_stored in Hrev as [h Hh].
    pose proof (Hdb h c Hh) as Hc.
    repeat split; cbn [repo after_checkout Git.worktree Git.index Git.HEAD
                       Git.objects]; try exact Hc.
    exact Hdb.
  - repeat split. cbn. intros h c H.
    apply lookup_singleton_Some in H as [_ <-]. reflexivity.
Qed.

(** ** Invariants over sequences of calls *)



Lemma store_subseteq h c (db : gmap string Git.Commit) :
  db ⊆ GitPython.store h c db.
Proof.
  unfold GitPython.store. destruct (db !! h) eqn:E; [reflexivity|].
  apply insert_subseteq, E.
Qed.

(** X3: the object database only grows.  Whatever calls are served, with
    whatever device operations, every commit stored before is stored after
    under the same digest; a rollback removes nothing. *)
Theorem api_run_never_loses_a_commit `{pf : Platform} ops calls w :
  Git.objects (repo w) ⊆ Git.objects (repo (api_run ops calls w)).
Proof.
  apply (api_run_repo_invariant
           (fun r => Git.objects (repo w) ⊆ Git.objects r)).
  - intros d i cfg u w0 H. cbn [repo after_commit Git.objects].
    etransitivity; [exact H | apply store_subseteq].
  - intros rev c w0 _ H. exact H.
  - reflexivity.
Qed.

Lemma store_size h c (db : gmap string Git.Commit) :
  (size (GitPython.store h c db) <= S (size db))%nat.
Proof.
  unfold GitPython.store. destruct (db !! h) eqn:E; [lia|].
  rewrite map_size_insert_None by exact E. lia.
Qed.

(** X5: the object database grows by at most one commit per configure call:
    pre-check, history and rollback calls add nothing. *)
Theorem api_run_store_size `{pf : Platform} ops calls w :
  (size (Git.objects (repo (api_run ops calls w)))
   <= size (Git.objects (repo w)) + length (List.filter is_configure calls))%nat.
Proof.
  induction calls as [|call calls IH] using rev_ind; [cbn; lia|].
  rewrite api_run_snoc, List.filter_app, length_app.
  destruct (api_step_cases ops (api_run ops calls w) call)
    as [[E|[(d & i & cfg & u & w0 & E0 & E & Hc)|(rev & c & _ & E)]] _];
    rewrite E.
  - lia.
  - cbn [repo after_commit Git.objects]. rewrite E0.
    cbn [List.filter]. rewrite Hc. cbn [length].
    pose proof (store_size (hexsha (next_commit d i cfg u w0))
                  (next_commit d i cfg u w0)
                  (Git.objects (repo (api_run ops calls w)))). lia.
  - cbn [repo after_checkout Git.objects]. lia.
Qed.

Lemma apply_follows_commit_app tr evs :
  apply_follows_commit tr -> apply_follows_commit evs ->
  apply_follows_commit (tr ++ evs).
Proof.
  intros Htr Hevs n d cfg Hn.
  destruct (Nat.lt_ge_cases n (length tr)) as [Hlt|Hge].
  - rewrite lookup_app_l in Hn by exact Hlt.
    destruct (Htr n d cfg Hn) as (m & c & -> & Hm).
    exists m, c. split; [reflexivity|].
    rewrite lookup_app_l by lia. exact Hm.
  - rewrite lookup_app_r in Hn by exact Hge.
    destruct (Hevs _ d cfg Hn) as (m & c & Hnm & Hm).
    exists (length tr + m)%nat, c. split; [lia|].
    rewrite lookup_app_r by lia.
    replace (length tr + m - length tr)%nat with m by lia. exact Hm.
Qed.

(** X6: over any sequence of calls and any device operations, no
    configuration is sent to a device without a commit made just before: if
    every apply call in the trace directly follows the creation of a commit
    before the calls, so it is after them; and it is so from start-up. *)
Theorem api_run_applies_only_after_commit `{pf : Platform} ops calls w existing user clk :
  (apply_follows_commit (trace w) ->
   apply_follows_commit (trace (api_run ops calls w)))
  /\ apply_follows_commit (trace (api_run ops calls (startup existing user clk))).
Proof.
  assert (H : forall w0, apply_follows_commit (trace w0) ->
                         apply_follows_commit (trace (api_run ops calls w0))).
  { intros w0 Hw. induction calls as [|call calls IH] using rev_ind; [exact Hw|].
    rewrite api_run_snoc.
    destruct (api_step_cases ops (api_run ops calls w0) call)
      as [_ (evs & -> & Hevs)].
    apply apply_follows_commit_app; [exact IH|].
    destruct Hevs as [->|[(d & i & ->)|(d & i & c & cfg & ->)]].
    - intros n d0 cfg0 Hn. destruct n; discriminate Hn.
    - intros [|n] d0 cfg0 Hn; [discriminate Hn | destruct n; discriminate Hn].
    - intros [|[|[|n]]] d0 cfg0 Hn; try discriminate Hn.
      exists 1%nat, c. split; reflexivity. }
  split; [apply H|]. apply H.
  intros n d cfg Hn. destruct n; discriminate Hn.
Qed.

(** ** The files of a commit *)





Lemma length_append s t :
  String.length (s +:+ t) = (String.length s + String.length t)%nat.
Proof.
  induction s as [|a s IH]; [reflexivity|].
  rewrite append_cons. cbn [String.length]. now rewrite IH.
Qed.

Lemma append_inj_r s1 s2 t : s1 +:+ t = s2 +:+ t -> s1 = s2.
Proof.
  revert s2; induction s1 as [|a s1 IH]; intros [|b s2] H.
  - reflexivity.
  - apply (f_equal String.length) in H.
    rewrite append_cons in H. cbn [String.length] in H.
    rewrite !length_append in H. cbn [String.length] in H. lia.
  - apply (f_equal String.length) in H.
    rewrite append_cons in H. cbn [String.length] in H.
    rewrite !length_append in H. cbn [String.length] in H. lia.
  - rewrite !append_cons in H. injection H as -> H. f_equal. apply IH, H.
Qed.

(** X9: on one device, two interface names are kept in the same file exactly
    when they agree once every slash is replaced by an underscore, as Eth1/1
    and Eth1_1 do; a commit for one of them then replaces the current
    configuration file of the other. *)
Theorem config_file_shared_by_interfaces `{pf : Platform} d i1 i2 :
  (config_file d i1 = config_file d i2
   <-> PyStr.replace_char "/" "_" i1 = PyStr.replace_char "/" "_" i2)
  /\ config_file d "Eth1/1" = config_file d "Eth1_1"
  /\ (PyStr.replace_char "/" "_" i1 = PyStr.replace_char "/" "_" i2 ->
      forall cfg u w,
        Git.worktree (repo (snd (GitOpsManager.commit_config d i2 cfg u w)))
          !! config_file d i1 = Some cfg).
Proof.
  assert (Hiff : forall a b,
             PyStr.replace_char "/" "_" a = PyStr.replace_char "/" "_" b ->
             config_file d a = config_file d b).
  { intros a b E. unfold config_file. now rewrite E. }
  split; [split; [|apply Hiff]|].
  - unfold config_file. intros H.
    do 2 apply String.app_inj in H. apply append_inj_r in H. exact H.
  - split; [reflexivity|].
    intros E cfg u w. rewrite (Hiff _ _ E), commit_config_eq.
    cbn [snd repo after_commit Git.worktree]. unfold with_files.
    rewrite lookup_insert_ne
      by (intros X; symmetry in X; revert X; apply config_file_ne_metadata_file).
    apply lookup_insert_eq.
Qed.

(** ** Rollback and what follows it *)

(** X10: after a rollback that resolves to commit [c], the history is the
    chain of [c] alone, newest first and cut by the limit: commits made after
    [c] are no longer listed, although the object database still holds them;
    and the next commit is made on top of [c]. *)
Theorem history_after_rollback `{pf : Platform} rev w c limit :
  rev_parse (repo w) rev = Some c ->
  let w' := snd (rollback_config rev w) in
  get_history None limit w'
  = (Returns (map GitOpsManager.commit_data
                (PyStr.slice_to (Git.iter_from c) limit)), w')
  /\ Git.objects (repo w') = Git.objects (repo w)
  /\ forall d i cfg u,
      exists info,
        Git.HEAD (repo (snd (GitOpsManager.commit_config d i cfg u w')))
        = Git.Child info c.
Proof.
  intros H. cbv zeta. rewrite rollback_config_eq, H. cbn [snd].
  split; [|split].
  - rewrite get_history_endpoint_eq, get_history_eq, filter_selected_None.
    reflexivity.
  - reflexivity.
  - intros d i cfg u. rewrite commit_config_eq.
    cbn [snd repo after_commit Git.HEAD]. unfold next_commit.
    cbn [repo after_checkout Git.HEAD]. eexists. reflexivity.
Qed.

Lemma history_after_rollback_witness :
  let w := snd (@configure_port Demo.platform ex_request Demo.world0) in
  let c := Git.HEAD (repo Demo.world0) in
  let w' := snd (@rollback_config Demo.platform "0fff" w) in
  @get_history Demo.platform None 50 w'
  = (Returns (map (@GitOpsManager.commit_data Demo.platform)
                (PyStr.slice_to (Git.iter_from c) 50)), w')
  /\ Git.objects (repo w') = Git.objects (repo w)
  /\ forall d i cfg u,
      exists info,
        Git.HEAD (repo (snd (@GitOpsManager.commit_config Demo.platform
                               d i cfg u w')))
        = Git.Child info c.
Proof.
  apply (@history_after_rollback Demo.platform "0fff"
           (snd (@configure_port Demo.platform ex_request Demo.world0))
           (Git.HEAD (repo Demo.world0)) 50).
  vm_compute. reflexivity.
Defined.

(** ** Failures of the device operations *)

(** X12: the pre-check route turns every exception of the device operation
    into a 500 whose detail is the text of the exception; an HTTP error
    raised below loses its own status code that way.  The repository is not
    touched. *)
Theorem pre_check_route_reports_500 ops d i w e :
  op_pre_check_port ops w d i = Raises e ->
  fst (pre_check_port_with ops d i w) = Raises (HTTPException 500 (str_exc e))
  /\ (forall st detail,
        e = HTTPException st detail ->
        fst (pre_check_port_with ops d i w)
        = Raises (HTTPException 500 (pretty st +:+ ": " +:+ detail)))
  /\ repo (snd (pre_check_port_with ops d i w)) = repo w
  /\ trace (snd (pre_check_port_with ops d i w))
     = trace w ++ [PreCheckCalled d i].
Proof.
  intros H. rewrite pre_check_port_with_eq, H. cbn [fst snd].
  split; [reflexivity|]. split; [intros st detail ->; reflexivity|].
  split; reflexivity.
Qed.

Lemma pre_check_route_reports_500_witness :
  fst (pre_check_port_with not_found_ops "leaf-01" "Eth9/9" Demo.world0)
  = Raises (HTTPException 500
              (str_exc (HTTPException 404 "no such port: Eth9/9")))
  /\ (forall st detail,
        HTTPException 404 "no such port: Eth9/9" = HTTPException st detail ->
        fst (pre_check_port_with not_found_ops "leaf-01" "Eth9/9" Demo.world0)
        = Raises (HTTPException 500 (pretty st +:+ ": " +:+ detail)))
  /\ repo (snd (pre_check_port_with not_found_ops "leaf-01" "Eth9/9" Demo.world0))
     = repo Demo.world0
  /\ trace (snd (pre_check_port_with not_found_ops "leaf-01" "Eth9/9" Demo.world0))
     = trace Demo.world0 ++ [PreCheckCalled "leaf-01" "Eth9/9"].
Proof.
  apply (pre_check_route_reports_500 not_found_ops "leaf-01" "Eth9/9"
           Demo.world0 (HTTPException 404 "no such port: Eth9/9")).
  reflexivity.
Defined.

(** X13: when the pre-check itself raises, configure stops there: nothing is
    committed and nothing is applied.  An HTTP error raised below is passed
    on with its own status code, any other exception is answered with a 500
    carrying its text. *)
Theorem configure_stops_when_pre_check_raises `{pf : Platform} ops request w e :
  op_pre_check_port ops w (device request) (interface request) = Raises e ->
  let run := configure_port_with ops request w in
  fst run = Raises (as_http e)
  /\ (forall st detail, e = HTTPException st detail ->
        fst run = Raises (HTTPException st detail))
  /\ (forall text, e = DeviceError text ->
        fst run = Raises (HTTPException 500 text))
  /\ repo (snd run) = repo w
  /\ trace (snd run)
     = trace w ++ [PreCheckCalled (device request) (interface request)].
Proof.
  intros H. cbv zeta. rewrite configure_port_with_eq. cbv zeta. rewrite H.
  cbn [fst snd]. split; [reflexivity|].
  split; [intros st detail ->; reflexivity|].
  split; [intros text ->; reflexivity|]. split; reflexivity.
Qed.

Lemma configure_stops_when_pre_check_raises_witness :
  let run := @configure_port_with Demo.platform offline_ops ex_request
               Demo.world0 in
  fst run = Raises (as_http (DeviceError "unreachable: leaf-01"))
  /\ (forall st detail,
        DeviceError "unreachable: leaf-01" = HTTPException st detail ->
        fst run = Raises (HTTPException st detail))
  /\ (forall text, DeviceError "unreachable: leaf-01" = DeviceError text ->
        fst run = Raises (HTTPException 500 text))
  /\ repo (snd run) = repo Demo.world0
  /\ trace (snd run) = trace Demo.world0 ++ [PreCheckCalled "leaf-01" "Eth1/1"].
Proof.
  apply (@configure_stops_when_pre_check_raises Demo.platform offline_ops
           ex_request Demo.world0 (DeviceError "unreachable: leaf-01")).
  reflexivity.
Defined.

(** ** History queries at the edges *)

(** X14: a history query changes nothing; an empty device string is no
    filter at all, so it returns what a query without device returns; limit 0
    returns the empty list whatever the device; and a limit at least as large
    as the chain returns the whole chain. *)
Theorem get_history_edge_cases `{pf : Platform} device limit w :
  snd (get_history device limit w) = w
  /\ get_history (Some "") limit w = get_history None limit w
  /\ get_history device 0 w = (Returns [], w)
  /\ (Z.of_nat (length (Git.iter_from (Git.HEAD (repo w)))) <= limit ->
      get_history None limit w
      = (Returns (map GitOpsManager.commit_data
                    (Git.iter_from (Git.HEAD (repo w)))), w)).
Proof.
  split; [reflexivity|]. split; [reflexivity|]. split; [reflexivity|].
  intros Hl. rewrite get_history_endpoint_eq, get_history_eq, filter_selected_None.
  rewrite slice_to_nonneg by lia. rewrite firstn_all2 by lia. reflexivity.
Qed.


(** ** Rendering at the edges *)

(** X16: falsy values are treated as absent.  A VLAN or VNI of 0 and an
    empty description or VRF render exactly like a request without them. *)
Theorem generate_config_ignores_falsy_values request :
  NXOSOperations.generate_config (without_falsy request)
  = NXOSOperations.generate_config request.
Proof.
  unfold NXOSOperations.generate_config, NXOSOperations.config_lines,
    without_falsy.
  cbn [interface description mode vlan vni vrf].
  assert (Hi : forall o, truthy_int (truthy_int o) = truthy_int o)
    by (intros [[| |]|]; reflexivity).
  assert (Hs : forall o, truthy_str (truthy_str o) = truthy_str o)
    by (intros [[|]|]; reflexivity).
  rewrite !Hi, !Hs. reflexivity.
Qed.





(** ** File names *)

(** X19: the file name of an interface has no slash left, is as long as the
    interface name, and is the name itself when that has no slash; replacing
    again changes nothing. *)
Theorem replace_slash_properties s :
  PyStr.contains "/" (PyStr.replace_char "/" "_" s) = false
  /\ String.length (PyStr.replace_char "/" "_" s) = String.length s
  /\ PyStr.replace_char "/" "_" (PyStr.replace_char "/" "_" s)
     = PyStr.replace_char "/" "_" s
  /\ (PyStr.contains "/" s = false -> PyStr.replace_char "/" "_" s = s).
Proof.
  induction s as [|c s (IH1 & IH2 & IH3 & IH4)]; [repeat split|].
  cbn [PyStr.replace_char PyStr.contains String.length].
  destruct (Ascii.eqb_spec c "/") as [->|Hc].
  - repeat split.
    + cbn. exact IH1.
    + now rewrite IH2.
    + cbn. now rewrite IH3.
    + intros H. destruct s; cbn in H; discriminate H.
  - assert (Hp : forall t, String.prefix "/" (String c t) = false).
    { intros t. cbn [String.prefix].
      destruct (ascii_dec "/" c) as [E|]; [|reflexivity].
      exfalso. apply Hc. now symmetry. }
    repeat split.
    + rewrite Hp. exact IH1.
    + now rewrite IH2.
    + cbn [PyStr.replace_char].
      destruct (Ascii.eqb_spec c "/"); [contradiction|]. now rewrite IH3.
    + rewrite Hp. cbn [orb]. intros H. now rewrite IH4.
Qed.

(** ** The device filter of the history *)

Lemma prefix_split sub s :
  String.prefix sub s = true -> exists post, s = sub +:+ post.
Proof.
  revert s; induction sub as [|a sub IH]; intros s H.
  - exists s. reflexivity.
  - destruct s as [|b s]; [discriminate H|]. cbn [String.prefix] in H.
    destruct (ascii_dec a b) as [->|]; [|discriminate H].
    destruct (IH s H) as [post ->]. exists post. reflexivity.
Qed.

(** [sub in s] holds exactly when [s] is some text, then [sub], then some
    text. *)
Lemma contains_spec sub s :
  PyStr.contains sub s = true <-> exists pre post, s = pre +:+ sub +:+ post.
Proof.
  split.
  - induction s as [|a s IH]; cbn [PyStr.contains]; intros H.
    + apply orb_true_iff in H as [H|H]; [|discriminate H].
      apply prefix_split in H as [post ->]. exists "", post. reflexivity.
    + apply orb_true_iff in H as [H|H].
      * apply prefix_split in H as [post ->]. exists "", post. reflexivity.
      * destruct (IH H) as (pre & post & ->).
        exists (String a pre), post. reflexivity.
  - intros (pre & post & ->).
    apply contains_append_r, contains_prefix, prefix_append.
Qed.

(** X20: with a non-empty device string, the history keeps exactly those
    commits among the first [limit] of the chain whose message contains the
    string somewhere: as the device, as part of a longer device name, in the
    interface name or in the word Configure. *)
Theorem history_device_filter_is_substring `{pf : Platform} d limit w c :
  d <> "" ->
  In (GitOpsManager.commit_data c)
     (match fst (get_history (Some d) limit w) with
      | Returns entries => entries
      | Raises _ => []
      end)
  <-> exists c',
      GitOpsManager.commit_data c' = GitOpsManager.commit_data c
      /\ In c' (PyStr.slice_to (Git.iter_from (Git.HEAD (repo w))) limit)
      /\ exists pre post, Git.message (Git.info c') = pre +:+ d +:+ post.
Proof.
  intros Hd. rewrite get_history_endpoint_eq, get_history_eq. cbn [fst].
  rewrite in_map_iff. split.
  - intros (c' & E & Hin). apply filter_In in Hin as [Hin Hsel].
    exists c'. split; [exact E|]. split; [exact Hin|].
    unfold GitOpsManager.selected, truthy_str in Hsel.
    destruct d; [contradiction|]. cbn [PyStr.truthy] in Hsel.
    apply contains_spec, Hsel.
  - intros (c' & E & Hin & Hsub). exists c'. split; [exact E|].
    apply filter_In. split; [exact Hin|].
    unfold GitOpsManager.selected, truthy_str.
    destruct d; [contradiction|]. cbn [PyStr.truthy].
    apply contains_spec, Hsub.
Qed.

Lemma history_device_filter_is_substring_witness :
  let w := snd (@configure_port Demo.platform request_leaf_10 Demo.world0) in
  let c := Git.HEAD (repo w) in
  In (@GitOpsManager.commit_data Demo.platform c)
     (match fst (@get_history Demo.platform (Some "leaf-1") 50 w) with
      | Returns entries => entries
      | Raises _ => []
      end)
  <-> exists c',
      @GitOpsManager.commit_data Demo.platform c'
      = @GitOpsManager.commit_data Demo.platform c
      /\ In c' (PyStr.slice_to (Git.iter_from (Git.HEAD (repo w))) 50)
      /\ exists pre post, Git.message (Git.info c') = pre +:+ "leaf-1" +:+ post.
Proof.
  apply (@history_device_filter_is_substring Demo.platform "leaf-1" 50
           (snd (@configure_port Demo.platform request_leaf_10 Demo.world0))
           (Git.HEAD (repo (snd (@configure_port Demo.platform request_leaf_10
                                   Demo.world0))))).
  discriminate.
Defined.
